(** * Spano nutrition-tracking backend: a shallow embedding of [main.py]

    The development follows the source file top to bottom: Python strings,
    Python numbers (unbounded [int] and IEEE-754 binary64 [float]), the food
    table, [calculate_bmr], [calculate_nutrients], the two process-wide
    dictionaries [users] and [meals], and the five request handlers.  The
    handlers are written in explicit state-passing style over a small error
    type; every reading of [datetime.now()] is an input of the handler. *)

From Stdlib Require Import ZArith List Bool Ascii String Lia Permutation.
From Stdlib Require Import Floats.SpecFloat.
From Stdlib Require Import DecimalString DecimalNat DecimalZ.
Import ListNotations.

Open Scope Z_scope.

(** ** Python [str]

    A string is the list of its code points; the model covers the code
    points below 256, one [ascii] each. *)
Module PyStr.

Definition pystr := list ascii.

Definition str (s : string) : pystr := list_ascii_of_string s.

Definition code (c : ascii) : Z := Z.of_N (N_of_ascii c).

Definition ascii_eqb (a b : ascii) : bool := Ascii.eqb a b.

Fixpoint eqb (s t : pystr) : bool :=
  match s, t with
  | [], [] => true
  | a :: s', b :: t' => ascii_eqb a b && eqb s' t'
  | _, _ => false
  end.

(** [str.isspace] on one code point: TAB..CR, FS..US, SPACE, NEL, NBSP. *)
Definition is_space (c : ascii) : bool :=
  let n := code c in
  ((9 <=? n) && (n <=? 13)) || ((28 <=? n) && (n <=? 32))
  || (n =? 133) || (n =? 160).

(** [str.lower] on one code point: A-Z and the Latin-1 capitals. *)
Definition lower_char (c : ascii) : ascii :=
  let n := code c in
  if ((65 <=? n) && (n <=? 90)) || ((192 <=? n) && (n <=? 214))
     || ((216 <=? n) && (n <=? 222))
  then ascii_of_N (Z.to_N (n + 32)) else c.

Definition lower (s : pystr) : pystr := map lower_char s.

Fixpoint lstrip (s : pystr) : pystr :=
  match s with
  | [] => []
  | c :: s' => if is_space c then lstrip s' else s
  end.

Definition rstrip (s : pystr) : pystr := rev (lstrip (rev s)).

(** [s.strip()] *)
Definition strip (s : pystr) : pystr := rstrip (lstrip s).

(** [s.startswith(p)] *)
Fixpoint startswith (s p : pystr) : bool :=
  match p, s with
  | [], _ => true
  | b :: p', a :: s' => ascii_eqb a b && startswith s' p'
  | _ :: _, [] => false
  end.

(** [s[n:]] *)
Definition slice_from (n : nat) (s : pystr) : pystr := skipn n s.

(** [sep in s] for a one-character [sep] *)
Fixpoint contains (sep : ascii) (s : pystr) : bool :=
  match s with
  | [] => false
  | c :: s' => ascii_eqb c sep || contains sep s'
  end.

(** The text before and after the first [sep], when there is one. *)
Fixpoint cut (sep : ascii) (s : pystr) : option (pystr * pystr) :=
  match s with
  | [] => None
  | c :: s' =>
      if ascii_eqb c sep then Some ([], s')
      else match cut sep s' with
           | Some (l, r) => Some (c :: l, r)
           | None => None
           end
  end.

(** [s.split(sep, 1)] *)
Definition split1 (sep : ascii) (s : pystr) : list pystr :=
  match cut sep s with
  | Some (l, r) => [l; r]
  | None => [s]
  end.

(** [s.split(sep)] *)
Fixpoint split (sep : ascii) (s : pystr) : list pystr :=
  match s with
  | [] => [[]]
  | c :: s' =>
      if ascii_eqb c sep then [] :: split sep s'
      else match split sep s' with
           | tok :: toks => (c :: tok) :: toks
           | [] => [[c]]
           end
  end.

(** Truth value of a string: [if s]. *)
Definition truthy (s : pystr) : bool :=
  match s with [] => false | _ :: _ => true end.

(** [x in xs] for a list of strings. *)
Definition mem (x : pystr) (xs : list pystr) : bool := existsb (eqb x) xs.

(** [str(n)] for a non-negative [int], as an f-string prints it. *)
Definition of_nat (n : nat) : pystr :=
  str (NilEmpty.string_of_uint (Nat.to_uint n)).

(** [str(z)] for an [int]. *)
Definition of_Z (z : Z) : pystr :=
  str (NilEmpty.string_of_int (Z.to_int z)).

End PyStr.

Import PyStr.

(** ** Python numbers *)
Module PyNum.

(** A Python [float] is an IEEE-754 binary64 number. *)
Definition flt := spec_float.

Definition prec : Z := 53.
Definition emax : Z := 1024.

Definition fadd : flt -> flt -> flt := SFadd prec emax.
Definition fsub : flt -> flt -> flt := SFsub prec emax.
Definition fmul : flt -> flt -> flt := SFmul prec emax.
Definition fdiv : flt -> flt -> flt := SFdiv prec emax.
Definition feqb : flt -> flt -> bool := SFeqb.
Definition fltb : flt -> flt -> bool := SFltb.

(** The binary64 number nearest to an integer (ties to even); an infinity
    when the integer is out of range. *)
Definition nearest (z : Z) : flt := binary_normalize prec emax z 0 false.

(** A decimal literal [n/d], [d] a power of ten: both are exact in
    binary64 for the literals of the source, and the division rounds
    correctly, as the parser of literals does. *)
Definition lit (n d : Z) : flt := fdiv (nearest n) (nearest d).

Inductive exn :=
| InvalidGender   (* ValueError("Gender must be 'male' or 'female'") *)
| OverflowError.  (* int too large to convert to float *)

Inductive result (A : Type) :=
| Ok (a : A)
| Raise (e : exn).
Arguments Ok {A} a.
Arguments Raise {A} e.

Definition bind {A B} (r : result A) (k : A -> result B) : result B :=
  match r with
  | Ok a => k a
  | Raise e => Raise e
  end.

(** The least integer whose nearest binary64 number is an infinity: half
    way between the largest finite number and [2^1024]. *)
Definition int_overflow : Z := 2 ^ 1024 - 2 ^ 970.

(** [float(z)], as an arithmetic operator converts an [int] operand. *)
Definition float_of_int (z : Z) : result flt :=
  if Z.abs z <? int_overflow then Ok (nearest z) else Raise OverflowError.

(** The integer nearest to [m * 2^e], ties to even, for [e < 0]. *)
Definition half_even_shift (m : Z) (e : Z) : Z :=
  let d := Z.pow 2 (- e) in
  let q := Z.div m d in
  let r := Z.modulo m d in
  match Z.compare (2 * r) d with
  | Lt => q
  | Gt => q + 1
  | Eq => if Z.even q then q else q + 1
  end.

(** [round(x, 2)]: the decimal with two places nearest to the exact value
    of [x] (ties to even), converted back to the nearest binary64.
    Infinities, NaN, zeros and integral values round to themselves. *)
Definition round2 (x : flt) : flt :=
  match x with
  | S754_finite s m e =>
      if 0 <=? e then x
      else
        match half_even_shift (100 * Zpos m) e with
        | Zpos n => fdiv (S754_finite s n 0) (S754_finite false 100 0)
        | _ => S754_zero s
        end
  | _ => x
  end.

(** A Python number: [int] or [float]. *)
Inductive num :=
| PInt (z : Z)
| PFloat (f : flt).

(** [a + b].  An [int] added to a [float] is converted first; the
    accumulators of this program stay far below the range where that
    conversion raises, so the conversion is taken as [nearest]. *)
Definition add (a b : num) : num :=
  match a, b with
  | PInt x, PInt y => PInt (x + y)
  | PInt x, PFloat g => PFloat (fadd (nearest x) g)
  | PFloat f, PInt y => PFloat (fadd f (nearest y))
  | PFloat f, PFloat g => PFloat (fadd f g)
  end.

(** Exact comparison of an [int] with a [float]. *)
Definition int_float_eqb (x : Z) (g : flt) : bool :=
  match g with
  | S754_zero _ => x =? 0
  | S754_finite s m e =>
      let v := if s then Zneg m else Zpos m in
      if 0 <=? e then x =? v * Z.pow 2 e
      else x * Z.pow 2 (- e) =? v
  | _ => false
  end.

(** [a == b] *)
Definition num_eqb (a b : num) : bool :=
  match a, b with
  | PInt x, PInt y => x =? y
  | PInt x, PFloat g => int_float_eqb x g
  | PFloat f, PInt y => int_float_eqb y f
  | PFloat f, PFloat g => feqb f g
  end.

End PyNum.

Import PyNum.

Notation "x <- r ;; k" := (bind r (fun x => k))
  (at level 61, r at next level, right associativity).

(** ** The food table, [food_database] *)

Record nutrients := mk_nutrients {
  calories : num;
  protein : num;
  carbs : num;
  fiber : num
}.

Definition food (cal : Z) (p c f : num) : nutrients :=
  mk_nutrients (PInt cal) p c f.

Definition I (z : Z) : num := PInt z.
(** [F n] is the literal with one decimal place whose digits are [n]. *)
Definition F (n : Z) : num := PFloat (lit n 10).

Definition food_database : list (pystr * nutrients) :=
  [ (str "rice",     food 130 (F 27) (I 28)  (F 4));
    (str "dal",      food 116 (F 68) (I 20)  (F 75));
    (str "cucumber", food 16  (F 7)  (F 36)  (F 5));
    (str "chicken",  food 165 (I 31) (I 0)   (I 0));
    (str "bread",    food 265 (I 9)  (I 49)  (F 27));
    (str "milk",     food 42  (F 34) (I 5)   (I 0));
    (str "egg",      food 155 (I 13) (F 11)  (I 0));
    (str "banana",   food 89  (F 11) (I 23)  (F 26));
    (str "apple",    food 52  (F 3)  (I 14)  (F 24));
    (str "salad",    food 20  (I 2)  (I 4)   (F 15));
    (str "pasta",    food 131 (I 5)  (I 25)  (F 18));
    (str "fish",     food 84  (I 18) (I 0)   (I 0));
    (str "beef",     food 250 (I 26) (I 0)   (I 0));
    (str "potato",   food 77  (I 2)  (I 17)  (F 22));
    (str "tomato",   food 18  (F 9)  (F 39)  (F 12));
    (str "onion",    food 40  (F 11) (F 93)  (F 17));
    (str "carrot",   food 41  (F 9)  (I 10)  (F 28));
    (str "spinach",  food 23  (F 29) (F 36)  (F 22));
    (str "yogurt",   food 59  (I 10) (F 36)  (I 0));
    (str "cheese",   food 113 (I 7)  (F 4)   (I 0)) ].

(** ** Dictionaries

    A [dict] keeps its keys in insertion order; assigning to a key that is
    present replaces the value in place, assigning to a new key appends. *)
Section Dict.
Context {V : Type}.

Definition dict := list (pystr * V).

Fixpoint get (d : dict) (k : pystr) : option V :=
  match d with
  | [] => None
  | (k', v) :: d' => if PyStr.eqb k k' then Some v else get d' k
  end.

(** [k in d] *)
Definition has (d : dict) (k : pystr) : bool :=
  match get d k with Some _ => true | None => false end.

(** [d[k] = v] *)
Fixpoint set (d : dict) (k : pystr) (v : V) : dict :=
  match d with
  | [] => [(k, v)]
  | (k', v') :: d' =>
      if PyStr.eqb k k' then (k', v) :: d' else (k', v') :: set d' k v
  end.

Definition keys (d : dict) : list pystr := map fst d.

(** [d.values()] *)
Definition values (d : dict) : list V := map snd d.
End Dict.
Arguments dict V : clear implicits.

(** ** [calculate_bmr] *)

Definition calculate_bmr (weight height : flt) (age : Z) (gender : pystr)
  : result flt :=
  if PyStr.eqb (lower gender) (str "male") then
    a <- float_of_int age ;;
    let bmr :=
      fsub (fadd (fadd (lit 88362 1000) (fmul (lit 13397 1000) weight))
                 (fmul (lit 4799 1000) height))
           (fmul (lit 5677 1000) a) in
    Ok (round2 bmr)
  else if PyStr.eqb (lower gender) (str "female") then
    a <- float_of_int age ;;
    let bmr :=
      fsub (fadd (fadd (lit 447593 1000) (fmul (lit 9247 1000) weight))
                 (fmul (lit 3098 1000) height))
           (fmul (lit 433 100) a) in
    Ok (round2 bmr)
  else Raise InvalidGender.

(** ** [calculate_nutrients] *)

Definition zero_nutrients : nutrients := mk_nutrients (I 0) (I 0) (I 0) (I 0).

(** One [+=] on each of the four fields. *)
Definition add_nutrients (t n : nutrients) : nutrients :=
  mk_nutrients (add (calories t) (calories n)) (add (protein t) (protein n))
               (add (carbs t) (carbs n)) (add (fiber t) (fiber n)).

(** The body of the loop, for one item. *)
Definition add_item (total : nutrients) (item : pystr) : nutrients :=
  let item_lower := strip (lower item) in
  match get food_database item_lower with
  | Some n => add_nutrients total n
  | None => total
  end.

Definition calculate_nutrients (food_items : list pystr) : nutrients :=
  fold_left add_item food_items zero_nutrients.

(** Equality of two totals as Python compares dictionaries: [==] on each
    value. *)
Definition nutrients_eqb (a b : nutrients) : bool :=
  num_eqb (calories a) (calories b) && num_eqb (protein a) (protein b)
  && num_eqb (carbs a) (carbs b) && num_eqb (fiber a) (fiber b).

(** ** Dates and clock readings *)
Module PyDatetime.

Record date := mk_date { d_year : Z; d_month : Z; d_day : Z }.

(** A naive [datetime].  The source stores [datetime.now().isoformat()] and
    reads it back with [datetime.fromisoformat], which returns the value
    that was printed; the model keeps the value. *)
Record datetime := mk_datetime {
  year : Z; month : Z; day : Z;
  hour : Z; minute : Z; second : Z; microsecond : Z
}.

(** [dt.date()] *)
Definition date_of (dt : datetime) : date :=
  mk_date (year dt) (month dt) (day dt).

(** [a == b] on dates *)
Definition date_eqb (a b : date) : bool :=
  (d_year a =? d_year b) && (d_month a =? d_month b) && (d_day a =? d_day b).

Definition is_digit (c : ascii) : bool := (48 <=? code c) && (code c <=? 57).
Definition digit (c : ascii) : Z := code c - 48.
Definition between (lo hi : Z) (c : ascii) : bool :=
  is_digit c && (lo <=? digit c) && (digit c <=? hi).

(** The directive [%m]: [1[0-2]|0[1-9]|[1-9]]. *)
Definition parse_month (s : pystr) : option Z :=
  match s with
  | [a; b] =>
      if (digit a =? 1) && between 0 2 b then Some (10 + digit b)
      else if (digit a =? 0) && between 1 9 b then Some (digit b)
      else None
  | [a] => if between 1 9 a then Some (digit a) else None
  | _ => None
  end.

(** The directive [%d]: [3[0-1]|[1-2]\d|0[1-9]|[1-9]| [1-9]]. *)
Definition parse_day (s : pystr) : option Z :=
  match s with
  | [a; b] =>
      if (digit a =? 3) && between 0 1 b then Some (30 + digit b)
      else if between 1 2 a && is_digit b then Some (10 * digit a + digit b)
      else if ((digit a =? 0) || (code a =? 32)) && between 1 9 b
      then Some (digit b)
      else None
  | [a] => if between 1 9 a then Some (digit a) else None
  | _ => None
  end.

Definition is_leap (y : Z) : bool :=
  ((y mod 4 =? 0) && negb (y mod 100 =? 0)) || (y mod 400 =? 0).

Definition days_in_month (y m : Z) : Z :=
  if m =? 2 then (if is_leap y then 29 else 28)
  else if (m =? 4) || (m =? 6) || (m =? 9) || (m =? 11) then 30
  else 31.

Definition valid_date (y m d : Z) : bool :=
  (1 <=? y) && (y <=? 9999) && (1 <=? m) && (m <=? 12)
  && (1 <=? d) && (d <=? days_in_month y m).

(** [datetime.strptime(s, "%Y-%m-%d").date()]; [None] stands for the
    [ValueError] of a text that does not match or is not a date. *)
Definition strptime_ymd (s : pystr) : option date :=
  match s with
  | y1 :: y2 :: y3 :: y4 :: dash :: rest =>
      if is_digit y1 && is_digit y2 && is_digit y3 && is_digit y4
         && (code dash =? 45)
      then
        match cut "-"%char rest with
        | Some (ms, ds) =>
            match parse_month ms, parse_day ds with
            | Some m, Some d =>
                let y := 1000 * digit y1 + 100 * digit y2
                         + 10 * digit y3 + digit y4 in
                if valid_date y m d then Some (mk_date y m d) else None
            | _, _ => None
            end
        | None => None
        end
      else None
  | _ => None
  end.

(** What one request reads from [datetime.now()]: the whole seconds since
    the epoch that go into an identifier, and the values that are stored
    as [created_at] and [logged_at]. *)
Record clock := mk_clock {
  epoch : Z;
  created_now : datetime;
  logged_now : datetime
}.

End PyDatetime.

Import PyDatetime.

(** ** The request models and the two stores *)

Inductive Gender := male | female.

Definition gender_value (g : Gender) : pystr :=
  match g with male => str "male" | female => str "female" end.

Record UserRegistration := mk_registration {
  reg_name : pystr;
  reg_age : Z;
  reg_weight : flt;
  reg_height : flt;
  reg_gender : Gender;
  reg_goal : pystr
}.

Record MealLogging := mk_logging {
  log_user : pystr;
  log_meal : pystr;
  log_items : list pystr
}.

Record user := mk_user {
  u_id : pystr;
  u_name : pystr;
  u_age : Z;
  u_weight : flt;
  u_height : flt;
  u_gender : pystr;
  u_goal : pystr;
  u_bmr : flt;
  u_created_at : datetime
}.

Record meal := mk_meal {
  m_id : pystr;
  m_user_id : pystr;
  m_meal_type : pystr;
  m_food_items : list pystr;
  m_logged_at : datetime;
  m_nutrients : nutrients
}.

(** The module-level dictionaries [users] and [meals]. *)
Record state := mk_state {
  users : dict user;
  meals : dict meal
}.

Definition initial : state := mk_state [] [].

(** The [HTTPException]s the handlers raise, by the place that raises. *)
Inductive format_issue :=
| NoLogPrefix   (* "Invalid message format. Must start with 'log '" *)
| NoColon.      (* "Invalid message format. Expected: 'log [meal_type]: [food_items]'" *)

Inductive http_error :=
| UserNotFound                       (* 404 "User not found" *)
| InvalidMealType                    (* 400 "Invalid meal type. ..." *)
| InvalidFormat (why : format_issue) (* 400 "Invalid message format. ..." *)
| NoFoodItems                        (* 400 "No food items provided" *)
| InvalidDateFormat                  (* 400 "Invalid date format. Use YYYY-MM-DD" *)
| RegistrationFailed (e : exn)       (* 400 "Registration failed: ..." *)
| WebhookFailed (e : exn).           (* 400 "Webhook processing failed: ..." *)

Inductive response (A : Type) :=
| Success (a : A)
| Failure (e : http_error).
Arguments Success {A} a.
Arguments Failure {A} e.

Definition valid_meals : list pystr :=
  [str "breakfast"; str "lunch"; str "dinner"].

(** The three identifier formats, [f"user_{n}_{t}"] and the like. *)
Definition user_id_of (n : nat) (t : Z) : pystr :=
  str "user_" ++ of_nat n ++ str "_" ++ of_Z t.
Definition meal_id_of (n : nat) (t : Z) : pystr :=
  str "meal_" ++ of_nat n ++ str "_" ++ of_Z t.
Definition webhook_meal_id_of (n : nat) (t : Z) : pystr :=
  str "webhook_meal_" ++ of_nat n ++ str "_" ++ of_Z t.

(** ** [register_user] *)
Definition register_user (st : state) (clk : clock) (user_data : UserRegistration)
  : response (pystr * flt) * state :=
  match calculate_bmr (reg_weight user_data) (reg_height user_data)
                      (reg_age user_data) (gender_value (reg_gender user_data)) with
  | Raise e => (Failure (RegistrationFailed e), st)
  | Ok bmr =>
      let user_id := user_id_of (List.length (users st) + 1) (epoch clk) in
      let u := mk_user user_id (reg_name user_data) (reg_age user_data)
                       (reg_weight user_data) (reg_height user_data)
                       (gender_value (reg_gender user_data))
                       (reg_goal user_data) bmr (created_now clk) in
      (Success (user_id, bmr), mk_state (set (users st) user_id u) (meals st))
  end.

(** ** [log_meals] *)
Definition log_meals (st : state) (clk : clock) (meal_data : MealLogging)
  : response (pystr * nutrients) * state :=
  if negb (has (users st) (log_user meal_data)) then (Failure UserNotFound, st)
  else if negb (mem (lower (log_meal meal_data)) valid_meals)
  then (Failure InvalidMealType, st)
  else
    let nutrients := calculate_nutrients (log_items meal_data) in
    let meal_id := meal_id_of (List.length (meals st) + 1) (epoch clk) in
    let m := mk_meal meal_id (log_user meal_data) (lower (log_meal meal_data))
                     (log_items meal_data) (logged_now clk) nutrients in
    (Success (meal_id, nutrients), mk_state (users st) (set (meals st) meal_id m)).

(** ** [get_user_meals] *)
Record meals_view := mk_meals_view {
  mv_user : pystr;
  mv_meals : list meal;
  mv_total_meals : nat
}.

Definition meals_of (st : state) (user : pystr) : list meal :=
  filter (fun m => PyStr.eqb (m_user_id m) user) (values (meals st)).

Definition on_date (filter_date : date) (m : meal) : bool :=
  date_eqb (date_of (m_logged_at m)) filter_date.

Definition get_user_meals (st : state) (user : pystr) (date : option pystr)
  : response meals_view :=
  if negb (has (users st) user) then Failure UserNotFound
  else
    let user_meals := meals_of st user in
    match date with
    | Some d =>
        if truthy d then
          match strptime_ymd d with
          | Some filter_date =>
              let filtered_meals := filter (on_date filter_date) user_meals in
              Success (mk_meals_view user filtered_meals (List.length filtered_meals))
          | None => Failure InvalidDateFormat
          end
        else Success (mk_meals_view user user_meals (List.length user_meals))
    | None => Success (mk_meals_view user user_meals (List.length user_meals))
    end.

(** ** [get_user_status] *)
Record status_view := mk_status_view {
  sv_user : pystr;
  sv_name : pystr;
  sv_bmr : flt;
  sv_consumed_nutrients : nutrients;
  sv_total_meals : nat
}.

(** The loop over [user_meals]. *)
Definition consumed (user_meals : list meal) : nutrients :=
  fold_left (fun total m => add_nutrients total (m_nutrients m))
            user_meals zero_nutrients.

Definition get_user_status (st : state) (user : pystr) : response status_view :=
  match get (users st) user with
  | None => Failure UserNotFound
  | Some u =>
      let user_meals := meals_of st user in
      Success (mk_status_view user (u_name u) (u_bmr u)
                              (consumed user_meals) (List.length user_meals))
  end.

(** ** [webhook_handler] *)
Record webhook_view := mk_webhook_view {
  wv_meal_id : pystr;
  wv_meal_type : pystr;
  wv_food_items : list pystr;
  wv_nutrients : nutrients
}.

Definition default_user : pystr := str "webhook_user".

Definition webhook_user (bmr : flt) (clk : clock) : user :=
  mk_user default_user (str "Webhook User") 25 (nearest 70) (nearest 170)
          (str "male") (str "general") bmr (created_now clk).

(** The value of [calculate_bmr(70.0, 170.0, 25, "male")]. *)
Definition default_bmr : flt :=
  round2 (fsub (fadd (fadd (lit 88362 1000) (fmul (lit 13397 1000) (nearest 70)))
                     (fmul (lit 4799 1000) (nearest 170)))
               (fmul (lit 5677 1000) (nearest 25))).

(** [if default_user not in users: users[default_user] = {...}] *)
Definition provision (us : dict user) (clk : clock) : result (dict user) :=
  if negb (has us default_user) then
    bmr <- calculate_bmr (nearest 70) (nearest 170) 25 (str "male") ;;
    Ok (set us default_user (webhook_user bmr clk))
  else Ok us.

Definition webhook_handler (st : state) (clk : clock) (text : pystr)
  : response webhook_view * state :=
  let message := strip text in
  if negb (startswith message (str "log "))
  then (Failure (InvalidFormat NoLogPrefix), st)
  else
    match split1 ":"%char (slice_from 4 message) with
    | [part0; part1] =>
        let meal_type := lower (strip part0) in
        let food_items_str := strip part1 in
        if negb (mem meal_type valid_meals) then (Failure InvalidMealType, st)
        else
          let food_items :=
            filter truthy (map strip (split ","%char food_items_str)) in
          match food_items with
          | [] => (Failure NoFoodItems, st)
          | _ :: _ =>
              match provision (users st) clk with
              | Raise e => (Failure (WebhookFailed e), st)
              | Ok us =>
                  let meal_id :=
                    webhook_meal_id_of (List.length (meals st) + 1) (epoch clk) in
                  let nutrients := calculate_nutrients food_items in
                  let m := mk_meal meal_id default_user meal_type food_items
                                   (logged_now clk) nutrients in
                  (Success (mk_webhook_view meal_id meal_type food_items nutrients),
                   mk_state us (set (meals st) meal_id m))
              end
          end
    | _ => (Failure (InvalidFormat NoColon), st)
    end.

(** ** Runs of the service

    The requests that change the stores, a run of them from a state, and
    the identifiers a run hands out. *)
Inductive request :=
| Register (clk : clock) (user_data : UserRegistration)
| LogMeals (clk : clock) (meal_data : MealLogging)
| Webhook (clk : clock) (text : pystr).

(** One request: the user identifier and the meal identifier it issues,
    if any, and the next state. *)
Definition handle (st : state) (r : request)
  : option pystr * option pystr * state :=
  match r with
  | Register clk user_data =>
      match register_user st clk user_data with
      | (Success (user_id, _), st') => (Some user_id, None, st')
      | (Failure _, st') => (None, None, st')
      end
  | LogMeals clk meal_data =>
      match log_meals st clk meal_data with
      | (Success (meal_id, _), st') => (None, Some meal_id, st')
      | (Failure _, st') => (None, None, st')
      end
  | Webhook clk text =>
      match webhook_handler st clk text with
      | (Success v, st') => (None, Some (wv_meal_id v), st')
      | (Failure _, st') => (None, None, st')
      end
  end.

Definition next (st : state) (r : request) : state := snd (handle st r).

Definition push (o : option pystr) (l : list pystr) : list pystr :=
  match o with Some x => x :: l | None => l end.

(** The user identifiers and the meal identifiers issued by a run, oldest
    first, and the final state. *)
Fixpoint run (st : state) (rs : list request)
  : list pystr * list pystr * state :=
  match rs with
  | [] => ([], [], st)
  | r :: rs' =>
      let '(ou, om, st') := handle st r in
      let '(us, ms, st'') := run st' rs' in
      (push ou us, push om ms, st'')
  end.

Inductive reachable : state -> Prop :=
| reachable_initial : reachable initial
| reachable_next st r : reachable st -> reachable (next st r).

(** ** The specification's own formulations *)

(** The formulas of the BMR calculator, in the order they are written. *)
Definition formula_male (weight height age : flt) : flt :=
  fsub (fadd (fadd (lit 88362 1000) (fmul (lit 13397 1000) weight))
             (fmul (lit 4799 1000) height))
       (fmul (lit 5677 1000) age).

Definition formula_female (weight height age : flt) : flt :=
  fsub (fadd (fadd (lit 447593 1000) (fmul (lit 9247 1000) weight))
             (fmul (lit 3098 1000) height))
       (fmul (lit 433 100) age).

(** "Does not start with the literal prefix, or the remainder, split on the
    first colon only, does not yield exactly two non-empty parts." *)
Definition spec_invalid_format (text : pystr) : bool :=
  negb (startswith text (str "log "))
  || match split1 ":"%char (slice_from 4 text) with
     | [l; r] => negb (truthy l && truthy r)
     | _ => true
     end.

(** "Split on commas, each token trimmed, empty tokens discarded." *)
Definition spec_tokens (right : pystr) : list pystr :=
  filter truthy (map strip (split ","%char right)).

(** The field-wise sum of a list of totals. *)
Definition sum_field (f : nutrients -> num) (l : list nutrients) : num :=
  fold_left add (map f l) (I 0).

(** ** Sample inputs *)

Definition noon : datetime := mk_datetime 2024 5 17 12 0 0 0.
Definition clock0 : clock := mk_clock 1715947200 noon noon.
Definition clock1 : clock :=
  mk_clock 1716062400 (mk_datetime 2024 5 18 20 0 0 0) (mk_datetime 2024 5 18 20 0 0 0).

Definition asha : UserRegistration :=
  mk_registration (str "Asha") 30 (nearest 60) (nearest 165) female (str "fitness").
Definition asha_id : pystr := user_id_of 1 1715947200.

(** One registered user, then a lunch and a dinner. *)
Definition state_asha : state := snd (register_user initial clock0 asha).
Definition state_lunch : state :=
  snd (log_meals state_asha clock0
         (mk_logging asha_id (str "lunch") [str "rice"; str "dal"])).
Definition state_dinner : state :=
  snd (log_meals state_lunch clock1
         (mk_logging asha_id (str "dinner") [str "chicken"])).

(** ** Predicates used by the proofs *)

(** A binary64 number that is not negative (and not the negative zero). *)
Definition nonneg (f : flt) : bool :=
  match f with
  | S754_zero s | S754_infinity s | S754_finite s _ _ => negb s
  | S754_nan => true
  end.

Definition good (x : num) : bool :=
  match x with
  | PInt z => 0 <=? z
  | PFloat f => nonneg f
  end.

Definition good_nutrients (n : nutrients) : bool :=
  good (calories n) && good (protein n) && good (carbs n) && good (fiber n).

(** Syntactic equality of two totals is decidable. *)
Definition nutrients_eq_dec (a b : nutrients) : {a = b} + {a <> b}.
Proof. repeat decide equality. Defined.

(** The calories of one item, as an integer. *)
Definition calories_of (item : pystr) : Z :=
  match get food_database (strip (lower item)) with
  | Some n => match calories n with PInt c => c | PFloat _ => 0 end
  | None => 0
  end.

Definition zsum (l : list Z) : Z := fold_right Z.add 0 l.

(** The shape of the keys of the two stores. *)
Definition user_key (bound : nat) (k : pystr) : Prop :=
  k = default_user \/ exists n t, k = user_id_of n t /\ (n <= bound)%nat.

Definition meal_key (bound : nat) (k : pystr) : Prop :=
  exists n t, (k = meal_id_of n t \/ k = webhook_meal_id_of n t) /\ (n <= bound)%nat.

Record invariant (st : state) : Prop := mk_invariant {
  inv_users : Forall (user_key (List.length (users st))) (keys (users st));
  inv_meals : Forall (meal_key (List.length (meals st))) (keys (meals st));
  inv_owner : Forall (fun m => has (users st) (m_user_id m) = true)
                     (values (meals st));
  inv_good : Forall (fun m => good_nutrients (m_nutrients m) = true)
                    (values (meals st))
}.

(** ** [health_check]

    The constant ["status": "healthy"] is left out of the view. *)
Record health_view := mk_health_view {
  hv_timestamp : datetime;
  hv_users_count : nat;
  hv_meals_count : nat
}.

Definition health_check (st : state) (now : datetime) : health_view :=
  mk_health_view now (List.length (users st)) (List.length (meals st)).

(** ** Notions used by the further properties *)

(** The key under which [calculate_nutrients] looks a name up. *)
Definition item_lower (item : pystr) : pystr := strip (lower item).

(** A number that is neither negative nor a NaN. *)
Definition proper (x : num) : bool :=
  match x with
  | PInt z => 0 <=? z
  | PFloat S754_nan => false
  | PFloat f => nonneg f
  end.

Definition proper_nutrients (n : nutrients) : bool :=
  proper (calories n) && proper (protein n) && proper (carbs n) && proper (fiber n).

(** A stored user: filed under its own identifier, with the BMR of its
    stored attributes. *)
Definition user_wf (entry : pystr * user) : Prop :=
  u_id (snd entry) = fst entry
  /\ calculate_bmr (u_weight (snd entry)) (u_height (snd entry))
                   (u_age (snd entry)) (u_gender (snd entry))
     = Ok (u_bmr (snd entry)).

(** A stored meal: filed under its own identifier, of a registered user,
    with one of the three meal types and the totals of its food items. *)
Definition meal_wf (us : dict user) (entry : pystr * meal) : Prop :=
  m_id (snd entry) = fst entry
  /\ has us (m_user_id (snd entry)) = true
  /\ mem (m_meal_type (snd entry)) valid_meals = true
  /\ m_nutrients (snd entry) = calculate_nutrients (m_food_items (snd entry)).

Record wellformed (st : state) : Prop := mk_wellformed {
  wf_users : Forall user_wf (users st);
  wf_meals : Forall (meal_wf (users st)) (meals st)
}.

(** The user whose meals a request can add to. *)
Definition target (r : request) : option pystr :=
  match r with
  | Register _ _ => None
  | LogMeals _ meal_data => Some (log_user meal_data)
  | Webhook _ _ => Some default_user
  end.

(** The state at the end of a run. *)
Definition final (st : state) (rs : list request) : state := snd (run st rs).

(** The place the default user takes in the registry, once it is there. *)
Definition default_count (us : dict user) : nat :=
  if has us default_user then 1%nat else 0%nat.

(** The registry once the default user is provided for. *)
Definition provisioned (us : dict user) (clk : clock) : dict user :=
  if has us default_user then us
  else us ++ [(default_user, webhook_user default_bmr clk)].

(** The requests that lead to [state_dinner], and one free-text message
    more. *)
Definition sample_requests : list request :=
  [ Register clock0 asha;
    LogMeals clock0 (mk_logging asha_id (str "lunch") [str "rice"; str "dal"]);
    LogMeals clock1 (mk_logging asha_id (str "dinner") [str "chicken"]) ].

Definition sample_message : request :=
  Webhook clock1 (str " log Dinner : Fish,  salad ,").

(** The records [state_dinner] holds for the sample user and her dinner. *)
Definition asha_user : user :=
  mk_user asha_id (str "Asha") 30 (nearest 60) (nearest 165) (str "female")
          (str "fitness") (lit 138368 100) noon.

Definition dinner_meal : meal :=
  mk_meal (meal_id_of 2 (epoch clock1)) asha_id (str "dinner") [str "chicken"]
          (logged_now clock1) (calculate_nutrients [str "chicken"]).

(** ** The spellings of a date

    The texts that denote a calendar date under ["%Y-%m-%d"]: the year in
    four digits, the month in two digits or, below ten, in one, the day in
    two digits or, below ten, in one digit or with a space before it. *)
Definition digit_char (k : Z) : ascii := ascii_of_N (Z.to_N (48 + k)).

Definition two_digits (n : Z) : pystr :=
  [digit_char (n / 10); digit_char (n mod 10)].

Definition four_digits (n : Z) : pystr :=
  [digit_char (n / 1000); digit_char (n / 100 mod 10);
   digit_char (n / 10 mod 10); digit_char (n mod 10)].

(** A calendar date, of the years 1 to 9999. *)
Definition valid (dt : date) : bool :=
  valid_date (d_year dt) (d_month dt) (d_day dt).

Definition spell (y : Z) (ms ds : pystr) : pystr :=
  four_digits y ++ str "-" ++ ms ++ str "-" ++ ds.

(** The text YYYY-MM-DD of a date. *)
Definition iso_text (dt : date) : pystr :=
  spell (d_year dt) (two_digits (d_month dt)) (two_digits (d_day dt)).

Definition month_spellings (m : Z) : list pystr :=
  two_digits m :: (if m <? 10 then [[digit_char m]] else []).

Definition day_spellings (d : Z) : list pystr :=
  two_digits d
  :: (if d <? 10 then [[digit_char d]; [" "%char; digit_char d]] else []).

(** The integers from 1 to [n]. *)
Definition upto (n : nat) : list Z := map Z.of_nat (seq 1 n).

Definition spellings (dt : date) : list pystr :=
  flat_map (fun ms => map (spell (d_year dt) ms) (day_spellings (d_day dt)))
           (month_spellings (d_month dt)).

(** * Strings *)
Section Strings.

Lemma ascii_eqb_eq (a b : ascii) : ascii_eqb a b = true <-> a = b.
Proof. apply Ascii.eqb_eq. Qed.

Lemma ascii_eqb_refl (a : ascii) : ascii_eqb a a = true.
Proof. apply Ascii.eqb_refl. Qed.

Lemma str_eqb_eq (s t : pystr) : PyStr.eqb s t = true <-> s = t.
Proof.
  revert t; induction s as [|a s IH]; intros [|b t]; simpl; split;
    try discriminate; try reflexivity.
  - intros H. apply andb_prop in H as [Hab Hst].
    apply ascii_eqb_eq in Hab. apply IH in Hst. now subst.
  - intros H. injection H as -> ->.
    rewrite ascii_eqb_refl. simpl. now apply IH.
Qed.

Lemma str_eqb_refl (s : pystr) : PyStr.eqb s s = true.
Proof. now apply str_eqb_eq. Qed.

Lemma str_eqb_neq (s t : pystr) : PyStr.eqb s t = false <-> s <> t.
Proof.
  split.
  - intros H E. apply str_eqb_eq in E. congruence.
  - intros H. destruct (PyStr.eqb s t) eqn:E; [|reflexivity].
    apply str_eqb_eq in E. contradiction.
Qed.

Lemma lstrip_idem (s : pystr) : lstrip (lstrip s) = lstrip s.
Proof.
  induction s as [|c s IH]; simpl; [reflexivity|].
  destruct (is_space c) eqn:E; [exact IH|]. simpl. now rewrite E.
Qed.

Lemma lstrip_snoc (s : pystr) (c : ascii) :
  lstrip (s ++ [c]) =
  match lstrip s with
  | [] => if is_space c then [] else [c]
  | t => t ++ [c]
  end.
Proof.
  induction s as [|a s IH]; simpl; [reflexivity|].
  destruct (is_space a); [exact IH | reflexivity].
Qed.

Lemma rstrip_cons (c : ascii) (s : pystr) :
  rstrip (c :: s) =
  match rstrip s with
  | [] => if is_space c then [] else [c]
  | _ :: _ => c :: rstrip s
  end.
Proof.
  unfold rstrip. simpl rev at 2. rewrite lstrip_snoc.
  destruct (lstrip (rev s)) as [|x t] eqn:E; simpl.
  - now destruct (is_space c).
  - rewrite rev_app_distr. simpl.
    destruct (rev t ++ [x]) eqn:E'; [|reflexivity].
    now destruct (rev t).
Qed.

Lemma rstrip_idem (s : pystr) : rstrip (rstrip s) = rstrip s.
Proof. unfold rstrip. now rewrite rev_involutive, lstrip_idem. Qed.

Lemma lstrip_rstrip (s : pystr) : lstrip (rstrip s) = rstrip (lstrip s).
Proof.
  induction s as [|c s IH]; [reflexivity|].
  rewrite rstrip_cons. simpl lstrip at 2.
  destruct (rstrip s) as [|x t] eqn:E.
  - destruct (is_space c) eqn:Ec; simpl.
    + now rewrite <- IH.
    + now rewrite Ec, rstrip_cons, E, Ec.
  - destruct (is_space c) eqn:Ec; simpl; rewrite Ec.
    + exact IH.
    + now rewrite rstrip_cons, E.
Qed.

Lemma strip_rstrip (s : pystr) : strip (rstrip s) = strip s.
Proof. unfold strip. now rewrite lstrip_rstrip, rstrip_idem. Qed.

Lemma strip_space_cons (c : ascii) (s : pystr) :
  is_space c = true -> strip (c :: s) = strip s.
Proof. intros H. unfold strip. simpl. now rewrite H. Qed.

Lemma split_not_nil (sep : ascii) (s : pystr) : split sep s <> [].
Proof.
  induction s as [|c s IH]; simpl; [discriminate|].
  destruct (ascii_eqb c sep); [discriminate|].
  destruct (split sep s); [contradiction | discriminate].
Qed.

Lemma split_single (sep : ascii) (s t : pystr) : split sep s = [t] -> s = t.
Proof.
  revert t; induction s as [|c s IH]; simpl; intros t H.
  - now injection H.
  - destruct (ascii_eqb c sep).
    + injection H as _ H. now apply split_not_nil in H.
    + destruct (split sep s) as [|tok toks] eqn:E.
      * now apply split_not_nil in E.
      * injection H as <- ->. f_equal. now apply IH.
Qed.

Lemma split_lstrip (sep : ascii) (s : pystr) :
  is_space sep = false ->
  map strip (split sep (lstrip s)) = map strip (split sep s).
Proof.
  intros Hsep. induction s as [|c s IH]; [reflexivity|].
  simpl lstrip. destruct (is_space c) eqn:Ec; [|reflexivity].
  rewrite IH. simpl.
  destruct (ascii_eqb c sep) eqn:E.
  - apply ascii_eqb_eq in E. congruence.
  - destruct (split sep s) as [|tok toks] eqn:Es.
    + now apply split_not_nil in Es.
    + simpl. now rewrite strip_space_cons.
Qed.

Lemma rstrip_cons_blank (c : ascii) (s : pystr) :
  rstrip s = [] -> rstrip (c :: s) = if is_space c then [] else [c].
Proof. intros H. now rewrite rstrip_cons, H. Qed.

Lemma rstrip_cons_keep (c : ascii) (s : pystr) :
  rstrip s <> [] -> rstrip (c :: s) = c :: rstrip s.
Proof.
  intros H. rewrite rstrip_cons. destruct (rstrip s); [contradiction | reflexivity].
Qed.

Lemma split_rstrip_last (sep : ascii) (s : pystr) :
  is_space sep = false ->
  exists pre last,
    split sep s = pre ++ [last] /\ split sep (rstrip s) = pre ++ [rstrip last].
Proof.
  intros Hsep. induction s as [|c s (pre & last & Hs & Hr)].
  - exists [], []. now split.
  - assert (Hcase : rstrip s = [] \/ rstrip s <> [])
      by (destruct (rstrip s); [now left | now right]).
    destruct Hcase as [E|E].
    + (* the rest is blank *)
      rewrite (rstrip_cons_blank c s E). rewrite E in Hr. simpl in Hr.
      destruct pre as [|p pre].
      2:{ destruct pre; discriminate. }
      simpl in Hr, Hs. injection Hr as Hl. simpl split at 1. rewrite Hs.
      destruct (ascii_eqb c sep) eqn:Ec.
      * apply ascii_eqb_eq in Ec. subst c. rewrite Hsep.
        exists [[]], last. split; [reflexivity|].
        simpl. rewrite ascii_eqb_refl, <- Hl. reflexivity.
      * exists [], (c :: last). split; [reflexivity|].
        rewrite (rstrip_cons_blank c last (eq_sym Hl)).
        destruct (is_space c); simpl; [reflexivity|now rewrite Ec].
    + rewrite (rstrip_cons_keep c s E). simpl split. rewrite Hs, Hr.
      destruct (ascii_eqb c sep) eqn:Ec.
      * exists ([] :: pre), last. now split.
      * destruct pre as [|p pre]; simpl.
        -- exists [], (c :: last). split; [reflexivity|].
           simpl in Hr. apply split_single in Hr.
           rewrite rstrip_cons_keep; [reflexivity | congruence].
        -- exists ((c :: p) :: pre), last. now split.
Qed.

Lemma split_strip (sep : ascii) (s : pystr) :
  is_space sep = false ->
  map strip (split sep (strip s)) = map strip (split sep s).
Proof.
  intros Hsep. unfold strip at 2.
  destruct (split_rstrip_last sep (lstrip s) Hsep) as (pre & last & Hs & Hr).
  rewrite Hr, map_app. simpl. rewrite strip_rstrip.
  change [strip last] with (map strip [last]).
  rewrite <- map_app, <- Hs. now apply split_lstrip.
Qed.

Lemma cut_contains (sep : ascii) (s : pystr) :
  cut sep s = None <-> contains sep s = false.
Proof.
  induction s as [|c s IH]; simpl; [tauto|].
  destruct (ascii_eqb c sep); simpl; [split; discriminate|].
  destruct (cut sep s) as [[l r]|]; split; intros H.
  - discriminate.
  - apply IH in H. discriminate.
  - now apply IH.
  - reflexivity.
Qed.

End Strings.

(** * Numbers and totals *)
Section Numbers.

Lemma binary_round_aux_nonneg (mx ex : Z) (lx : location) :
  nonneg (binary_round_aux prec emax false mx ex lx) = true.
Proof.
  unfold binary_round_aux.
  destruct (shr_fexp prec emax mx ex lx) as [mrs' e'].
  destruct (shr_fexp prec emax _ e' loc_Exact) as [mrs'' e''].
  destruct (shr_m mrs''); trivial.
  destruct (_ <=? _); reflexivity.
Qed.

Lemma binary_round_nonneg (m : positive) (e : Z) :
  nonneg (binary_round prec emax false m e) = true.
Proof.
  unfold binary_round. destruct (shl_align _ _ _) as [mz ez].
  apply binary_round_aux_nonneg.
Qed.

Lemma nearest_nonneg (z : Z) : 0 <= z -> nonneg (nearest z) = true.
Proof.
  intros H. unfold nearest, binary_normalize.
  destruct z as [|p|p]; [reflexivity | apply binary_round_nonneg | lia].
Qed.

Lemma fadd_nonneg (f g : flt) :
  nonneg f = true -> nonneg g = true -> nonneg (fadd f g) = true.
Proof.
  unfold fadd, SFadd.
  destruct f as [[|]| [|] | | [|] mf ef]; destruct g as [[|]| [|] | | [|] mg eg];
    simpl; try discriminate; try reflexivity.
  intros _ _.
  destruct (shl_align mf ef (Z.min ef eg)) as [m1 e1].
  destruct (shl_align mg eg (Z.min ef eg)) as [m2 e2]. simpl.
  apply binary_round_nonneg.
Qed.

Lemma add_good (a b : num) : good a = true -> good b = true -> good (add a b) = true.
Proof.
  destruct a as [x|f], b as [y|g]; simpl; intros Ha Hb.
  - apply Z.leb_le in Ha, Hb. apply Z.leb_le. lia.
  - apply fadd_nonneg; [apply nearest_nonneg; now apply Z.leb_le | exact Hb].
  - apply fadd_nonneg; [exact Ha | apply nearest_nonneg; now apply Z.leb_le].
  - now apply fadd_nonneg.
Qed.

(** Adding to the integer zero of a fresh accumulator changes nothing. *)
Lemma add_zero_l (x : num) : good x = true -> add (I 0) x = x.
Proof.
  destruct x as [z|f]; simpl; intros H; [reflexivity|].
  f_equal. destruct f as [[|]| [|] | | [|] m e]; try discriminate; reflexivity.
Qed.

Lemma add_nutrients_good (t n : nutrients) :
  good_nutrients t = true -> good_nutrients n = true ->
  good_nutrients (add_nutrients t n) = true.
Proof.
  unfold good_nutrients. intros Ht Hn.
  repeat (apply andb_prop in Ht as [Ht ?]).
  repeat (apply andb_prop in Hn as [Hn ?]).
  simpl. now rewrite !add_good.
Qed.

Lemma add_nutrients_zero_l (n : nutrients) :
  good_nutrients n = true -> add_nutrients zero_nutrients n = n.
Proof.
  unfold good_nutrients. intros Hn.
  repeat (apply andb_prop in Hn as [Hn ?]).
  destruct n as [c p cb f]. unfold add_nutrients, zero_nutrients.
  cbn [calories protein carbs fiber] in *.
  f_equal; now apply add_zero_l.
Qed.

(** ** The food table *)

Lemma get_In {V} (d : dict V) (k : pystr) (v : V) :
  get d k = Some v -> In v (values d).
Proof.
  induction d as [|[k' v'] d IH]; simpl; [discriminate|].
  destruct (PyStr.eqb k k'); [intros [= ->]; now left | right; now apply IH].
Qed.

Lemma food_database_good :
  forallb good_nutrients (values food_database) = true.
Proof. vm_compute. reflexivity. Qed.

Lemma food_good (k : pystr) (n : nutrients) :
  get food_database k = Some n -> good_nutrients n = true.
Proof.
  intros H. apply get_In in H.
  exact (proj1 (forallb_forall _ _) food_database_good n H).
Qed.

Lemma food_database_calories :
  forallb (fun n => match calories n with PInt _ => true | PFloat _ => false end)
          (values food_database) = true.
Proof. vm_compute. reflexivity. Qed.

Lemma food_calories (k : pystr) (n : nutrients) :
  get food_database k = Some n -> exists c, calories n = PInt c.
Proof.
  intros H. apply get_In in H.
  pose proof (proj1 (forallb_forall _ _) food_database_calories n H) as Hc.
  cbv beta in Hc.
  destruct (calories n) as [c|]; [now exists c | discriminate].
Qed.

(** ** [calculate_nutrients] *)

Lemma add_item_good (t : nutrients) (item : pystr) :
  good_nutrients t = true -> good_nutrients (add_item t item) = true.
Proof.
  intros Ht. unfold add_item.
  destruct (get food_database _) as [n|] eqn:E; [|exact Ht].
  apply add_nutrients_good; [exact Ht | now apply food_good in E].
Qed.

Lemma fold_add_item_good (l : list pystr) (t : nutrients) :
  good_nutrients t = true -> good_nutrients (fold_left add_item l t) = true.
Proof.
  revert t; induction l as [|x l IH]; simpl; intros t Ht; [exact Ht|].
  apply IH. now apply add_item_good.
Qed.

Lemma calculate_nutrients_good (l : list pystr) :
  good_nutrients (calculate_nutrients l) = true.
Proof. now apply fold_add_item_good. Qed.

Lemma add_item_unknown (t : nutrients) (item : pystr) :
  get food_database (strip (lower item)) = None -> add_item t item = t.
Proof. intros H. unfold add_item. now rewrite H. Qed.

Lemma add_item_calories (t : nutrients) (item : pystr) (c : Z) :
  calories t = PInt c -> calories (add_item t item) = PInt (c + calories_of item).
Proof.
  intros Ht. unfold add_item, calories_of.
  destruct (get food_database _) as [n|] eqn:E.
  - destruct (food_calories _ _ E) as [c' Hc']. simpl. now rewrite Ht, Hc'.
  - rewrite Ht. f_equal. lia.
Qed.

Lemma fold_add_item_calories (l : list pystr) (t : nutrients) (c : Z) :
  calories t = PInt c ->
  calories (fold_left add_item l t) = PInt (c + zsum (map calories_of l)).
Proof.
  revert t c; induction l as [|x l IH]; simpl; intros t c Ht.
  - rewrite Ht. f_equal. lia.
  - rewrite (IH _ _ (add_item_calories t x c Ht)). f_equal. lia.
Qed.

Lemma zsum_perm (l l' : list Z) : Permutation l l' -> zsum l = zsum l'.
Proof. induction 1; simpl; lia. Qed.

Lemma food_database_swap :
  forallb (fun n => forallb (fun n' =>
      if nutrients_eq_dec (add_nutrients (add_nutrients zero_nutrients n) n')
                          (add_nutrients (add_nutrients zero_nutrients n') n)
      then true else false) (values food_database)) (values food_database) = true.
Proof. vm_compute. reflexivity. Qed.

Lemma food_swap (n n' : nutrients) :
  In n (values food_database) -> In n' (values food_database) ->
  add_nutrients (add_nutrients zero_nutrients n) n'
  = add_nutrients (add_nutrients zero_nutrients n') n.
Proof.
  intros Hn Hn'.
  pose proof (proj1 (forallb_forall _ _) food_database_swap n Hn) as H.
  cbv beta in H.
  pose proof (proj1 (forallb_forall _ _) H n' Hn') as H'. cbv beta in H'.
  destruct (nutrients_eq_dec _ _) as [E|]; [exact E | discriminate].
Qed.

End Numbers.

(** * Dictionaries *)
Section Dictionaries.
  Context {V : Type}.
  Implicit Types (d : dict V) (k : pystr) (v : V).

Lemma has_In d k : has d k = true <-> In k (keys d).
Proof.
  unfold has. induction d as [|[k' v'] d IH]; simpl.
  - split; [discriminate | contradiction].
  - destruct (PyStr.eqb k k') eqn:E.
    + apply str_eqb_eq in E. subst. split; [now left | reflexivity].
    + apply str_eqb_neq in E. rewrite IH. split; [now right|].
      intros [H|H]; [congruence | exact H].
Qed.

Lemma has_false d k : has d k = false <-> ~ In k (keys d).
Proof.
  rewrite <- has_In. destruct (has d k); split; intros H; congruence.
Qed.

Lemma set_fresh d k v : has d k = false -> set d k v = d ++ [(k, v)].
Proof.
  unfold has. induction d as [|[k' v'] d IH]; simpl; [reflexivity|].
  destruct (PyStr.eqb k k'); [discriminate|].
  intros H. now rewrite IH.
Qed.

Lemma get_snoc d k v k' :
  get (d ++ [(k, v)]) k' =
  match get d k' with
  | Some v' => Some v'
  | None => if PyStr.eqb k' k then Some v else None
  end.
Proof.
  induction d as [|[k0 v0] d IH]; simpl; [reflexivity|].
  destruct (PyStr.eqb k' k0); [reflexivity | exact IH].
Qed.

Lemma has_snoc d k v k' :
  has (d ++ [(k, v)]) k' = has d k' || PyStr.eqb k' k.
Proof.
  unfold has. rewrite get_snoc.
  destruct (get d k'); [reflexivity|]. now destruct (PyStr.eqb k' k).
Qed.

Lemma keys_snoc d k v : keys (d ++ [(k, v)]) = keys d ++ [k].
Proof. unfold keys. now rewrite map_app. Qed.

Lemma values_snoc d k v : values (d ++ [(k, v)]) = values d ++ [v].
Proof. unfold values. now rewrite map_app. Qed.

End Dictionaries.

(** * Identifiers *)
Section Identifiers.

Lemma str_inj (s t : string) : str s = str t -> s = t.
Proof.
  unfold str. intros H.
  rewrite <- (string_of_list_ascii_of_string s), H.
  apply string_of_list_ascii_of_string.
Qed.

Lemma string_of_uint_inj (a b : Decimal.uint) :
  NilEmpty.string_of_uint a = NilEmpty.string_of_uint b -> a = b.
Proof.
  intros H. pose proof (NilEmpty.usu a) as Ha. rewrite H, NilEmpty.usu in Ha.
  now injection Ha.
Qed.

Lemma of_nat_inj (n m : nat) : of_nat n = of_nat m -> n = m.
Proof.
  unfold of_nat. intros H.
  now apply DecimalNat.Unsigned.to_uint_inj, string_of_uint_inj, str_inj.
Qed.

Lemma string_of_uint_digits (u : Decimal.uint) :
  forallb is_digit (str (NilEmpty.string_of_uint u)) = true.
Proof. induction u; simpl; try reflexivity; exact IHu. Qed.

Lemma of_nat_digits (n : nat) : forallb is_digit (of_nat n) = true.
Proof. apply string_of_uint_digits. Qed.

(** Two runs of digits that end at an underscore are the same run. *)
Lemma digits_until_underscore (a b x y : pystr) :
  forallb is_digit a = true -> forallb is_digit b = true ->
  a ++ str "_" ++ x = b ++ str "_" ++ y -> a = b.
Proof.
  revert b; induction a as [|c a IH]; intros [|c' b] Ha Hb H; simpl in *.
  - reflexivity.
  - injection H as <- _. apply andb_prop in Hb as [Hb _]. discriminate.
  - injection H as -> _. apply andb_prop in Ha as [Ha _]. discriminate.
  - injection H as -> H.
    apply andb_prop in Ha as [_ Ha]. apply andb_prop in Hb as [_ Hb].
    f_equal. now apply IH.
Qed.

Lemma counter_inj (p : pystr) (n n' : nat) (t t' : Z) :
  p ++ of_nat n ++ str "_" ++ of_Z t = p ++ of_nat n' ++ str "_" ++ of_Z t' ->
  n = n'.
Proof.
  intros H. apply app_inv_head in H.
  apply digits_until_underscore in H; auto using of_nat_digits.
  now apply of_nat_inj.
Qed.

Lemma user_id_of_inj n t n' t' : user_id_of n t = user_id_of n' t' -> n = n'.
Proof. apply counter_inj. Qed.

Lemma meal_id_of_inj n t n' t' : meal_id_of n t = meal_id_of n' t' -> n = n'.
Proof. apply counter_inj. Qed.

Lemma webhook_meal_id_of_inj n t n' t' :
  webhook_meal_id_of n t = webhook_meal_id_of n' t' -> n = n'.
Proof. apply counter_inj. Qed.

Lemma user_id_not_default n t : user_id_of n t <> default_user.
Proof. intros H. apply (f_equal (hd "x"%char)) in H. discriminate H. Qed.

Lemma meal_id_not_webhook n t n' t' : meal_id_of n t <> webhook_meal_id_of n' t'.
Proof. intros H. apply (f_equal (hd "x"%char)) in H. discriminate H. Qed.

End Identifiers.

(** * The handlers, case by case *)
Section Handlers.

Lemma calculate_bmr_default :
  calculate_bmr (nearest 70) (nearest 170) 25 (str "male") = Ok default_bmr.
Proof. vm_compute. reflexivity. Qed.

Lemma provision_cases (us : dict user) (clk : clock) :
  (has us default_user = true /\ provision us clk = Ok us)
  \/ (has us default_user = false
      /\ provision us clk = Ok (us ++ [(default_user, webhook_user default_bmr clk)])).
Proof.
  unfold provision. destruct (has us default_user) eqn:E; cbn [negb].
  - now left.
  - right. split; [reflexivity|].
    rewrite calculate_bmr_default. unfold bind. now rewrite set_fresh.
Qed.

Lemma user_key_mono (a b : nat) (k : pystr) :
  (a <= b)%nat -> user_key a k -> user_key b k.
Proof.
  intros Hab [H|(n & t & H & Hn)]; [now left|].
  right. exists n, t. split; [exact H | lia].
Qed.

Lemma meal_key_mono (a b : nat) (k : pystr) :
  (a <= b)%nat -> meal_key a k -> meal_key b k.
Proof.
  intros Hab (n & t & H & Hn). exists n, t. split; [exact H | lia].
Qed.

Lemma fresh_user_id (us : dict user) (t : Z) :
  Forall (user_key (List.length us)) (keys us) ->
  has us (user_id_of (List.length us + 1) t) = false.
Proof.
  intros H. apply has_false. intros Hin.
  rewrite Forall_forall in H. destruct (H _ Hin) as [E|(n & t' & E & Hn)].
  - now apply user_id_not_default in E.
  - apply user_id_of_inj in E. lia.
Qed.

Lemma fresh_meal_id (ms : dict meal) (t : Z) :
  Forall (meal_key (List.length ms)) (keys ms) ->
  has ms (meal_id_of (List.length ms + 1) t) = false.
Proof.
  intros H. apply has_false. intros Hin.
  rewrite Forall_forall in H. destruct (H _ Hin) as (n & t' & [E|E] & Hn).
  - apply meal_id_of_inj in E. lia.
  - now apply meal_id_not_webhook in E.
Qed.

Lemma fresh_webhook_meal_id (ms : dict meal) (t : Z) :
  Forall (meal_key (List.length ms)) (keys ms) ->
  has ms (webhook_meal_id_of (List.length ms + 1) t) = false.
Proof.
  intros H. apply has_false. intros Hin.
  rewrite Forall_forall in H. destruct (H _ Hin) as (n & t' & [E|E] & Hn).
  - symmetry in E. now apply meal_id_not_webhook in E.
  - apply webhook_meal_id_of_inj in E. lia.
Qed.

(** The stores after a meal is appended under a fresh key. *)
Lemma invariant_add_meal (st : state) (us : dict user) (k : pystr) (m : meal) :
  invariant st ->
  (us = users st \/ exists u, has (users st) default_user = false
                              /\ us = users st ++ [(default_user, u)]) ->
  meal_key (List.length (meals st) + 1) k ->
  has us (m_user_id m) = true ->
  good_nutrients (m_nutrients m) = true ->
  invariant (mk_state us (meals st ++ [(k, m)])).
Proof.
  intros [Hu Hm Ho Hg] Hus Hk Hown Hgood. split; cbn [users meals].
  - destruct Hus as [->|(u & _ & ->)]; [exact Hu|].
    rewrite keys_snoc, length_app. cbn [List.length]. apply Forall_app. split.
    + eapply Forall_impl; [|exact Hu]. intros a. apply user_key_mono. lia.
    + constructor; [now left | constructor].
  - rewrite keys_snoc, length_app. cbn [List.length]. apply Forall_app. split.
    + eapply Forall_impl; [|exact Hm]. intros a. apply meal_key_mono. lia.
    + constructor; [exact Hk | constructor].
  - rewrite values_snoc. apply Forall_app. split.
    + eapply Forall_impl; [|exact Ho]. intros a Ha.
      destruct Hus as [->|(u & _ & ->)]; [exact Ha|].
      rewrite has_snoc, Ha. reflexivity.
    + constructor; [exact Hown | constructor].
  - rewrite values_snoc. apply Forall_app. split; [exact Hg|].
    constructor; [exact Hgood | constructor].
Qed.

Lemma invariant_add_user (st : state) (k : pystr) (u : user) :
  invariant st ->
  user_key (List.length (users st) + 1) k ->
  invariant (mk_state (users st ++ [(k, u)]) (meals st)).
Proof.
  intros [Hu Hm Ho Hg] Hk. split; cbn [users meals].
  - rewrite keys_snoc, length_app. cbn [List.length]. apply Forall_app. split.
    + eapply Forall_impl; [|exact Hu]. intros a. apply user_key_mono. lia.
    + constructor; [exact Hk | constructor].
  - exact Hm.
  - eapply Forall_impl; [|exact Ho]. intros a Ha.
    rewrite has_snoc, Ha. reflexivity.
  - exact Hg.
Qed.

Lemma invariant_initial : invariant initial.
Proof. split; constructor. Qed.

(** What [register_user] does in a state that satisfies the invariant. *)
Lemma register_user_cases (st : state) (clk : clock) (d : UserRegistration) :
  invariant st ->
  (exists e, register_user st clk d = (Failure (RegistrationFailed e), st))
  \/ (exists bmr u,
        let user_id := user_id_of (List.length (users st) + 1) (epoch clk) in
        has (users st) user_id = false
        /\ register_user st clk d
           = (Success (user_id, bmr),
              mk_state (users st ++ [(user_id, u)]) (meals st))).
Proof.
  intros Hinv. unfold register_user.
  destruct (calculate_bmr _ _ _ _) as [bmr|e]; [right | left; now exists e].
  pose proof (fresh_user_id (users st) (epoch clk) (inv_users st Hinv)) as Hf.
  eexists bmr, _. split; [exact Hf|]. cbv zeta. now rewrite set_fresh.
Qed.

(** What [log_meals] does in a state that satisfies the invariant. *)
Lemma log_meals_cases (st : state) (clk : clock) (d : MealLogging) :
  invariant st ->
  (exists e, log_meals st clk d = (Failure e, st))
  \/ (let meal_id := meal_id_of (List.length (meals st) + 1) (epoch clk) in
      let n := calculate_nutrients (log_items d) in
      has (users st) (log_user d) = true
      /\ has (meals st) meal_id = false
      /\ log_meals st clk d
         = (Success (meal_id, n),
            mk_state (users st)
              (meals st ++ [(meal_id,
                 mk_meal meal_id (log_user d) (lower (log_meal d)) (log_items d)
                         (logged_now clk) n)]))).
Proof.
  intros Hinv. unfold log_meals.
  destruct (has (users st) (log_user d)) eqn:Hu; cbn [negb];
    [|left; now exists UserNotFound].
  destruct (mem _ valid_meals); cbn [negb]; [|left; now exists InvalidMealType].
  right. cbv zeta.
  pose proof (fresh_meal_id (meals st) (epoch clk) (inv_meals st Hinv)) as Hf.
  repeat split; [exact Hf|]. now rewrite set_fresh.
Qed.

(** What [webhook_handler] does in a state that satisfies the invariant. *)
Lemma webhook_handler_cases (st : state) (clk : clock) (text : pystr) :
  invariant st ->
  (exists e, webhook_handler st clk text = (Failure e, st))
  \/ (exists us meal_type items,
        let meal_id := webhook_meal_id_of (List.length (meals st) + 1) (epoch clk) in
        let n := calculate_nutrients items in
        provision (users st) clk = Ok us
        /\ has (meals st) meal_id = false
        /\ webhook_handler st clk text
           = (Success (mk_webhook_view meal_id meal_type items n),
              mk_state us
                (meals st ++ [(meal_id,
                   mk_meal meal_id default_user meal_type items
                           (logged_now clk) n)]))).
Proof.
  intros Hinv. unfold webhook_handler.
  cbv zeta.
  destruct (startswith _ _); cbn [negb]; [|left; now eexists].
  destruct (split1 _ _) as [|p0 [|p1 [|p2 ps]]]; try (left; now eexists).
  destruct (mem _ valid_meals); cbn [negb]; [|left; now eexists].
  destruct (filter truthy _) as [|i items] eqn:Ei; [left; now eexists|].
  destruct (provision_cases (users st) clk) as [[_ Hp]|[_ Hp]]; rewrite Hp;
    right; eexists _, _, _;
    pose proof (fresh_webhook_meal_id (meals st) (epoch clk) (inv_meals st Hinv)) as Hf;
    (repeat split; [exact Hf|]); now rewrite set_fresh.
Qed.

Lemma invariant_next (st : state) (r : request) :
  invariant st -> invariant (next st r).
Proof.
  intros Hinv. unfold next, handle. destruct r as [clk d|clk d|clk text].
  - destruct (register_user_cases st clk d Hinv) as [[e ->]|(bmr & u & _ & ->)];
      cbn [snd fst]; [exact Hinv|].
    apply invariant_add_user; [exact Hinv|].
    right. eexists _, _. split; [reflexivity | lia].
  - destruct (log_meals_cases st clk d Hinv) as [[e ->]|(Hu & _ & ->)];
      cbn [snd fst]; [exact Hinv|].
    apply invariant_add_meal; cbn [m_user_id m_nutrients];
      auto using calculate_nutrients_good.
    eexists _, _. split; [left; reflexivity | lia].
  - destruct (webhook_handler_cases st clk text Hinv)
      as [[e ->]|(us & mt & items & Hp & _ & ->)]; cbn [snd fst]; [exact Hinv|].
    apply invariant_add_meal; cbn [m_user_id m_nutrients];
      auto using calculate_nutrients_good.
    + destruct (provision_cases (users st) clk) as [[_ Hp']|[Hd Hp']];
        rewrite Hp' in Hp; injection Hp as <-; [now left|].
      right. now eexists.
    + eexists _, _. split; [right; reflexivity | lia].
    + destruct (provision_cases (users st) clk) as [[Hd Hp']|[Hd Hp']];
        rewrite Hp' in Hp; injection Hp as <-; [exact Hd|].
      rewrite has_snoc, str_eqb_refl. apply orb_true_r.
Qed.

Lemma reachable_invariant (st : state) : reachable st -> invariant st.
Proof.
  induction 1; [exact invariant_initial | now apply invariant_next].
Qed.

End Handlers.

(** * The status query *)
Section Status.

Lemma consumed_from (l : list meal) (t : nutrients) :
  fold_left (fun total m => add_nutrients total (m_nutrients m)) l t
  = mk_nutrients
      (fold_left add (map calories (map m_nutrients l)) (calories t))
      (fold_left add (map protein (map m_nutrients l)) (protein t))
      (fold_left add (map carbs (map m_nutrients l)) (carbs t))
      (fold_left add (map fiber (map m_nutrients l)) (fiber t)).
Proof.
  revert t; induction l as [|m l IH]; intros t; [now destruct t|].
  cbn [fold_left map]. now rewrite IH.
Qed.

Lemma consumed_fields (l : list meal) :
  consumed l
  = mk_nutrients (sum_field calories (map m_nutrients l))
                 (sum_field protein (map m_nutrients l))
                 (sum_field carbs (map m_nutrients l))
                 (sum_field fiber (map m_nutrients l)).
Proof. apply consumed_from. Qed.

Lemma no_meals_of_unknown (ms : list meal) (us : dict user) (U : pystr) :
  Forall (fun m => has us (m_user_id m) = true) ms ->
  has us U = false ->
  filter (fun m => PyStr.eqb (m_user_id m) U) ms = [].
Proof.
  intros Hown HU. induction Hown as [|m ms Hm _ IH]; [reflexivity|].
  cbn [filter]. destruct (PyStr.eqb (m_user_id m) U) eqn:E; [|exact IH].
  apply str_eqb_eq in E. congruence.
Qed.

(** C1: for a registered user the status query returns, field by field,
    the sum of the stored totals of the meals of the ledger that belong to
    the user, and their number; after registering a user and logging two
    meals for that user, the totals are the sum of the two aggregates and
    the count is 2. *)
Theorem status_sums_user_meals :
  (forall (st : state) (U : pystr) (u : user),
      get (users st) U = Some u ->
      let totals := map m_nutrients (meals_of st U) in
      get_user_status st U
      = Success (mk_status_view U (u_name u) (u_bmr u)
                   (mk_nutrients (sum_field calories totals)
                                 (sum_field protein totals)
                                 (sum_field carbs totals)
                                 (sum_field fiber totals))
                   (List.length (meals_of st U))))
  /\ (forall st0 c0 d U bmr st1 c1 cat1 items1 r1 st2 c2 cat2 items2 r2 st3,
      reachable st0 ->
      register_user st0 c0 d = (Success (U, bmr), st1) ->
      log_meals st1 c1 (mk_logging U cat1 items1) = (Success r1, st2) ->
      log_meals st2 c2 (mk_logging U cat2 items2) = (Success r2, st3) ->
      exists v,
        get_user_status st3 U = Success v
        /\ sv_consumed_nutrients v
           = add_nutrients (calculate_nutrients items1) (calculate_nutrients items2)
        /\ sv_total_meals v = 2%nat).
Proof.
  split.
  - intros st U u Hu totals. unfold get_user_status. rewrite Hu.
    now rewrite consumed_fields.
  - intros st0 c0 d U bmr st1 c1 cat1 items1 r1 st2 c2 cat2 items2 r2 st3
           Hreach Hreg Hlog1 Hlog2.
    pose proof (reachable_invariant st0 Hreach) as Hinv0.
    destruct (register_user_cases st0 c0 d Hinv0) as [[e He]|(b & u & Hfresh & He)];
      rewrite He in Hreg; [discriminate|].
    cbv zeta in Hfresh. injection Hreg as HU _ Hst1. subst U st1. clear He.
    set (U := user_id_of (List.length (users st0) + 1) (epoch c0)) in *.
    assert (Hinv1 : invariant (mk_state (users st0 ++ [(U, u)]) (meals st0))).
    { apply invariant_add_user; [exact Hinv0|].
      right. exists (List.length (users st0) + 1)%nat, (epoch c0). now split. }
    destruct (log_meals_cases _ c1 (mk_logging U cat1 items1) Hinv1)
      as [[e He]|(_ & Hf1 & He)]; rewrite He in Hlog1; [discriminate|].
    injection Hlog1 as _ Hst2. clear He. cbn [users meals log_user log_items log_meal] in *.
    set (m1 := mk_meal _ U (lower cat1) items1 (logged_now c1) _) in *.
    assert (Hinv2 : invariant st2).
    { subst st2.
      apply (invariant_add_meal (mk_state (users st0 ++ [(U, u)]) (meals st0)));
        cbn [users meals m_user_id m_nutrients m1]; auto using calculate_nutrients_good.
      - eexists _, _. split; [left; reflexivity | lia].
      - rewrite has_snoc, str_eqb_refl. apply orb_true_r. }
    destruct (log_meals_cases _ c2 (mk_logging U cat2 items2) Hinv2)
      as [[e He]|(_ & Hf2 & He)]; rewrite He in Hlog2; [discriminate|].
    injection Hlog2 as _ Hst3. clear He. cbn [log_user log_items log_meal] in *.
    set (m2 := mk_meal _ U (lower cat2) items2 (logged_now c2) _) in *.
    subst st3 st2. cbn [users meals] in *.
    unfold get_user_status. cbn [users meals].
    rewrite get_snoc.
    assert (Hnone : get (users st0) U = None).
    { unfold has in Hfresh. now destruct (get (users st0) U). }
    rewrite Hnone, str_eqb_refl.
    assert (Hmeals : meals_of (mk_state (users st0 ++ [(U, u)])
                                 ((meals st0 ++ [(m_id m1, m1)]) ++ [(m_id m2, m2)])) U
                     = [m1; m2]).
    { unfold meals_of. cbn [meals]. rewrite !values_snoc, !filter_app.
      rewrite (no_meals_of_unknown _ (users st0) U (inv_owner _ Hinv0) Hfresh).
      cbn [filter app m_user_id m1 m2]. now rewrite str_eqb_refl. }
    cbn [m_id m1 m2] in Hmeals. rewrite Hmeals.
    eexists. split; [reflexivity|]. cbn [sv_consumed_nutrients sv_total_meals].
    split; [|reflexivity].
    unfold consumed. cbn [fold_left m_nutrients m1 m2].
    now rewrite add_nutrients_zero_l by apply calculate_nutrients_good.
Qed.

Lemma status_sums_user_meals_witness :
  exists v,
    get_user_status state_dinner asha_id = Success v
    /\ sv_consumed_nutrients v
       = add_nutrients (calculate_nutrients [str "rice"; str "dal"])
                       (calculate_nutrients [str "chicken"])
    /\ sv_total_meals v = 2%nat.
Proof.
  refine (proj2 status_sums_user_meals initial clock0 asha asha_id _
            state_asha clock0 (str "lunch") [str "rice"; str "dal"] _
            state_lunch clock1 (str "dinner") [str "chicken"] _ state_dinner
            reachable_initial _ _ _); vm_compute; reflexivity.
Defined.

End Status.

(** * The BMR calculator *)
Section Bmr.

(** C2 as stated fails: the [int] age [2^1024] is positive, and for it
    [calculate_bmr] returns no number: the conversion of the age to a
    float, inside the product with 5.677, raises [OverflowError]. *)
Lemma calculate_bmr_overflows :
  ~ (forall (weight height : flt) (age : Z),
        fltb (nearest 0) weight = true ->
        fltb (nearest 0) height = true ->
        0 < age ->
        calculate_bmr weight height age (str "male")
        = Ok (round2 (formula_male weight height (nearest age)))).
Proof.
  intros H.
  specialize (H (nearest 70) (nearest 170) (2 ^ 1024) eq_refl eq_refl eq_refl).
  assert (E : calculate_bmr (nearest 70) (nearest 170) (2 ^ 1024) (str "male")
              = Raise OverflowError) by (vm_compute; reflexivity).
  rewrite E in H. discriminate H.
Qed.

(** C2, amended: for positive weight and height and a positive age below
    [int_overflow] = 2^1024 - 2^970, [calculate_bmr] returns the male
    formula rounded to two decimals for "male" and the female formula
    rounded to two decimals for "female", the age taken as the float
    nearest to it; from [int_overflow] on it raises [OverflowError] for
    both. *)
Theorem calculate_bmr_formula_in_range (weight height : flt) (age : Z) :
  fltb (nearest 0) weight = true ->
  fltb (nearest 0) height = true ->
  0 < age ->
  (age < int_overflow ->
   calculate_bmr weight height age (str "male")
   = Ok (round2 (formula_male weight height (nearest age)))
   /\ calculate_bmr weight height age (str "female")
      = Ok (round2 (formula_female weight height (nearest age))))
  /\ (int_overflow <= age ->
      calculate_bmr weight height age (str "male") = Raise OverflowError
      /\ calculate_bmr weight height age (str "female") = Raise OverflowError).
Proof.
  intros _ _ Hage. unfold calculate_bmr, float_of_int.
  change (PyStr.eqb (lower (str "male")) (str "male")) with true.
  change (PyStr.eqb (lower (str "female")) (str "male")) with false.
  change (PyStr.eqb (lower (str "female")) (str "female")) with true.
  cbv iota. rewrite Z.abs_eq by lia.
  split; intros H.
  - apply Z.ltb_lt in H. rewrite H. split; reflexivity.
  - apply Z.ltb_ge in H. rewrite H. split; reflexivity.
Qed.

Lemma calculate_bmr_formula_in_range_witness :
  (calculate_bmr (nearest 70) (nearest 170) 25 (str "male")
   = Ok (round2 (formula_male (nearest 70) (nearest 170) (nearest 25)))
   /\ calculate_bmr (nearest 70) (nearest 170) 25 (str "female")
      = Ok (round2 (formula_female (nearest 70) (nearest 170) (nearest 25))))
  /\ (calculate_bmr (nearest 70) (nearest 170) (2 ^ 1024) (str "male")
      = Raise OverflowError
      /\ calculate_bmr (nearest 70) (nearest 170) (2 ^ 1024) (str "female")
         = Raise OverflowError).
Proof.
  split.
  - apply (proj1 (calculate_bmr_formula_in_range (nearest 70) (nearest 170) 25
                    eq_refl eq_refl eq_refl)).
    reflexivity.
  - apply (proj2 (calculate_bmr_formula_in_range (nearest 70) (nearest 170) (2 ^ 1024)
                    eq_refl eq_refl eq_refl)).
    intros H. discriminate H.
Defined.

(** C8 as stated fails: the comparison ignores letter case, so a gender
    other than "male" and "female" can be accepted. *)
Lemma calculate_bmr_accepts_uppercase :
  ~ (forall (weight height : flt) (age : Z) (gender : pystr),
        gender <> str "male" -> gender <> str "female" ->
        calculate_bmr weight height age gender = Raise InvalidGender).
Proof.
  intros H.
  specialize (H (nearest 70) (nearest 170) 25 (str "MALE")).
  assert (E : calculate_bmr (nearest 70) (nearest 170) 25 (str "MALE")
              = Ok default_bmr) by (vm_compute; reflexivity).
  rewrite E in H.
  assert (Ok default_bmr = Raise InvalidGender) as X; [|discriminate X].
  apply H; intros X; vm_compute in X; discriminate X.
Qed.

(** C8, amended: [calculate_bmr] fails with [InvalidGender] exactly for the
    gender values whose lowercase form is neither "male" nor "female"; it is
    a function of its four arguments. *)
Theorem calculate_bmr_invalid_gender (weight height : flt) (age : Z) (gender : pystr) :
  calculate_bmr weight height age gender = Raise InvalidGender
  <-> (lower gender <> str "male" /\ lower gender <> str "female").
Proof.
  unfold calculate_bmr.
  destruct (PyStr.eqb (lower gender) (str "male")) eqn:Em.
  - apply str_eqb_eq in Em. split.
    + unfold float_of_int. destruct (_ <? _); discriminate.
    + intros [H _]. contradiction.
  - apply str_eqb_neq in Em.
    destruct (PyStr.eqb (lower gender) (str "female")) eqn:Ef.
    + apply str_eqb_eq in Ef. split.
      * unfold float_of_int. destruct (_ <? _); discriminate.
      * intros [_ H]. contradiction.
    + apply str_eqb_neq in Ef. split; [now split | reflexivity].
Qed.

Lemma calculate_bmr_invalid_gender_witness :
  calculate_bmr (nearest 70) (nearest 170) 25 (str "other") = Raise InvalidGender.
Proof.
  apply (proj2 (calculate_bmr_invalid_gender (nearest 70) (nearest 170) 25 (str "other"))).
  split; intros X; vm_compute in X; discriminate X.
Defined.

End Bmr.

(** * The nutrient aggregator *)
Section Aggregator.

(** C5: the empty list gives the all-zero totals, and a name whose trimmed
    lowercase form is not in the food table changes nothing: the totals are
    those of the list without it. *)
Theorem unknown_foods_are_skipped :
  calculate_nutrients [] = mk_nutrients (PInt 0) (PInt 0) (PInt 0) (PInt 0)
  /\ (forall (before after : list pystr) (item : pystr),
         get food_database (strip (lower item)) = None ->
         calculate_nutrients (before ++ item :: after)
         = calculate_nutrients (before ++ after)).
Proof.
  split; [reflexivity|].
  intros before after item H. unfold calculate_nutrients.
  rewrite !fold_left_app. cbn [fold_left]. now rewrite add_item_unknown.
Qed.

Lemma unknown_foods_are_skipped_witness :
  calculate_nutrients ([str "rice"] ++ str " Pizza" :: [str "dal"])
  = calculate_nutrients ([str "rice"] ++ [str "dal"]).
Proof.
  apply (proj2 unknown_foods_are_skipped [str "rice"] [str "dal"] (str " Pizza")).
  vm_compute. reflexivity.
Defined.

(** C6 as stated fails: binary64 addition rounds, so the protein total of
    rice, dal, milk differs from that of milk, dal, rice. *)
Lemma summation_order_matters :
  ~ (forall l l' : list pystr,
        Permutation l l' ->
        nutrients_eqb (calculate_nutrients l) (calculate_nutrients l') = true).
Proof.
  intros H.
  specialize (H [str "rice"; str "dal"; str "milk"]
                (rev [str "rice"; str "dal"; str "milk"])
                (Permutation_rev _)).
  vm_compute in H. discriminate H.
Qed.

(** C6, amended: the calories total, a sum of integers, is the same for a
    list and any permutation of it, and the four totals of a list of two
    names are those of the two names swapped. *)
Theorem calories_order_independent :
  (forall l l' : list pystr,
      Permutation l l' ->
      calories (calculate_nutrients l) = calories (calculate_nutrients l'))
  /\ (forall a b : pystr,
         calculate_nutrients [a; b] = calculate_nutrients [b; a]).
Proof.
  split.
  - intros l l' Hp. unfold calculate_nutrients.
    rewrite !(fold_add_item_calories _ zero_nutrients 0) by reflexivity.
    do 2 f_equal. apply zsum_perm. now apply Permutation_map.
  - intros a b. unfold calculate_nutrients. cbn [fold_left]. unfold add_item.
    destruct (get food_database (strip (lower a))) as [n|] eqn:Ea;
      destruct (get food_database (strip (lower b))) as [n'|] eqn:Eb;
      try reflexivity.
    apply food_swap; eapply get_In; eassumption.
Qed.

Lemma calories_order_independent_witness :
  calories (calculate_nutrients [str "rice"; str "dal"; str "milk"])
  = calories (calculate_nutrients [str "milk"; str "dal"; str "rice"])
  /\ calculate_nutrients [str "rice"; str "chicken"]
     = calculate_nutrients [str "chicken"; str "rice"].
Proof.
  split.
  - apply (proj1 calories_order_independent
             [str "rice"; str "dal"; str "milk"] (rev [str "rice"; str "dal"; str "milk"])).
    apply Permutation_rev.
  - apply (proj2 calories_order_independent).
Defined.

End Aggregator.

(** * The free-text path *)
Section Webhook.

Lemma webhook_no_prefix (st : state) (clk : clock) (text : pystr) :
  startswith (strip text) (str "log ") = false ->
  webhook_handler st clk text = (Failure (InvalidFormat NoLogPrefix), st).
Proof. intros H. unfold webhook_handler. now rewrite H. Qed.

Lemma webhook_no_colon (st : state) (clk : clock) (text : pystr) :
  startswith (strip text) (str "log ") = true ->
  cut ":"%char (slice_from 4 (strip text)) = None ->
  webhook_handler st clk text = (Failure (InvalidFormat NoColon), st).
Proof. intros H C. unfold webhook_handler, split1. now rewrite H, C. Qed.

(** The handler once the prefix and the colon are found. *)
Lemma webhook_parts (st : state) (clk : clock) (text part0 part1 : pystr) :
  startswith (strip text) (str "log ") = true ->
  cut ":"%char (slice_from 4 (strip text)) = Some (part0, part1) ->
  webhook_handler st clk text =
  if negb (mem (lower (strip part0)) valid_meals) then (Failure InvalidMealType, st)
  else
    match spec_tokens part1 with
    | [] => (Failure NoFoodItems, st)
    | food_items =>
        match provision (users st) clk with
        | Raise e => (Failure (WebhookFailed e), st)
        | Ok us =>
            let meal_id := webhook_meal_id_of (List.length (meals st) + 1) (epoch clk) in
            let n := calculate_nutrients food_items in
            (Success (mk_webhook_view meal_id (lower (strip part0)) food_items n),
             mk_state us
               (set (meals st) meal_id
                  (mk_meal meal_id default_user (lower (strip part0)) food_items
                           (logged_now clk) n)))
        end
    end.
Proof.
  intros H C. unfold webhook_handler, split1, spec_tokens. rewrite H, C.
  cbn [negb]. rewrite (split_strip ","%char part1 eq_refl).
  destruct (mem _ valid_meals); cbn [negb]; [|reflexivity].
  now destruct (filter truthy _).
Qed.

(** C3 as stated fails: an empty part left of the colon is reported as an
    invalid meal type, not as an invalid format. *)
Lemma empty_part_is_not_invalid_format :
  ~ (forall (st : state) (clk : clock) (text : pystr),
        (exists why, fst (webhook_handler st clk text) = Failure (InvalidFormat why))
        <-> spec_invalid_format text = true).
Proof.
  intros H.
  destruct (proj2 (H initial clock0
                     (str "log :rice")) eq_refl) as [why Hwhy].
  vm_compute in Hwhy. discriminate Hwhy.
Qed.

(** C3, amended: the handler fails with [InvalidFormat] exactly when the
    message, trimmed of surrounding whitespace, does not start with "log "
    or has no colon after the prefix; an empty part left of the first colon
    fails with [InvalidMealType], and an empty part right of it, after a
    valid meal type, fails with [NoFoodItems]. *)
Theorem webhook_invalid_format (st : state) (clk : clock) (text : pystr) :
  ((exists why, fst (webhook_handler st clk text) = Failure (InvalidFormat why))
   <-> (startswith (strip text) (str "log ") = false
        \/ contains ":"%char (slice_from 4 (strip text)) = false))
  /\ (forall right,
         startswith (strip text) (str "log ") = true ->
         cut ":"%char (slice_from 4 (strip text)) = Some ([], right) ->
         fst (webhook_handler st clk text) = Failure InvalidMealType)
  /\ (forall left,
         startswith (strip text) (str "log ") = true ->
         cut ":"%char (slice_from 4 (strip text)) = Some (left, []) ->
         mem (lower (strip left)) valid_meals = true ->
         fst (webhook_handler st clk text) = Failure NoFoodItems).
Proof.
  split; [|split].
  - destruct (startswith (strip text) (str "log ")) eqn:Hp.
    + destruct (cut ":"%char (slice_from 4 (strip text))) as [[l r]|] eqn:Hc.
      * split.
        -- intros [why Hw]. rewrite (webhook_parts st clk text l r Hp Hc) in Hw.
           destruct (mem _ valid_meals); cbn [negb fst] in Hw; [|discriminate Hw].
           destruct (spec_tokens r); [discriminate Hw|].
           destruct (provision_cases (users st) clk) as [[_ E]|[_ E]];
             rewrite E in Hw; discriminate Hw.
        -- intros [H|H]; [discriminate H|].
           apply cut_contains in H. congruence.
      * split.
        -- intros _. right. now apply cut_contains.
        -- intros _. exists NoColon. now rewrite webhook_no_colon.
    + split; [now left|]. intros _. exists NoLogPrefix.
      now rewrite webhook_no_prefix.
  - intros right Hp Hc. now rewrite (webhook_parts st clk text [] right Hp Hc).
  - intros left Hp Hc Hm. rewrite (webhook_parts st clk text left [] Hp Hc), Hm.
    reflexivity.
Qed.

Lemma webhook_invalid_format_witness :
  (exists why, fst (webhook_handler initial
                      clock0
                      (str "log lunch rice")) = Failure (InvalidFormat why))
  /\ fst (webhook_handler initial
            clock0
            (str "log :rice")) = Failure InvalidMealType
  /\ fst (webhook_handler initial
            clock0
            (str "log lunch:")) = Failure NoFoodItems.
Proof.
  split; [|split].
  - apply (proj1 (webhook_invalid_format _ _ _)). right. reflexivity.
  - apply (proj1 (proj2 (webhook_invalid_format _ _ _)) (str "rice")); reflexivity.
  - apply (proj2 (proj2 (webhook_invalid_format _ _ _)) (str "lunch")); reflexivity.
Defined.

(** C4: once the prefix, the colon and the meal type are accepted, the
    food items are the tokens of the right part split on commas, each
    trimmed, the empty ones dropped, in split order and otherwise as
    written; the handler fails with [NoFoodItems] exactly when none is
    left. *)
Theorem webhook_food_items (st : state) (clk : clock) (text part0 part1 : pystr) :
  startswith (strip text) (str "log ") = true ->
  cut ":"%char (slice_from 4 (strip text)) = Some (part0, part1) ->
  mem (lower (strip part0)) valid_meals = true ->
  (spec_tokens part1 = []
   /\ fst (webhook_handler st clk text) = Failure NoFoodItems)
  \/ (spec_tokens part1 <> []
      /\ exists v, fst (webhook_handler st clk text) = Success v
                   /\ wv_food_items v = spec_tokens part1).
Proof.
  intros Hp Hc Hm. rewrite (webhook_parts st clk text part0 part1 Hp Hc), Hm.
  cbn [negb]. destruct (spec_tokens part1) as [|i items]; [now left|].
  right. split; [discriminate|].
  destruct (provision_cases (users st) clk) as [[_ E]|[_ E]]; rewrite E;
    eexists; split; reflexivity.
Qed.

Lemma webhook_food_items_witness :
  exists v,
    fst (webhook_handler initial
           clock0
           (str "log lunch:rice,,dal")) = Success v
    /\ wv_food_items v = [str "rice"; str "dal"].
Proof.
  destruct (webhook_food_items initial
              clock0
              (str "log lunch:rice,,dal") (str "lunch") (str "rice,,dal")
              eq_refl eq_refl eq_refl) as [[E _]|[_ H]].
  - vm_compute in E. discriminate E.
  - exact H.
Defined.

(** C7: the structured path fails with [UserNotFound] for an unknown user
    and leaves both stores as they were; the free-text path never fails
    with [UserNotFound]: it leaves the registry unchanged when the default
    user exists, when it logs a meal without one it appends the default
    user with the fixed attributes, and when it fails it changes nothing. *)
Theorem user_not_found_only_when_structured :
  (forall (st : state) (clk : clock) (meal_data : MealLogging),
      has (users st) (log_user meal_data) = false ->
      log_meals st clk meal_data = (Failure UserNotFound, st))
  /\ (forall (st : state) (clk : clock) (text : pystr),
         fst (webhook_handler st clk text) <> Failure UserNotFound
         /\ (has (users st) default_user = true ->
             users (snd (webhook_handler st clk text)) = users st)
         /\ (has (users st) default_user = false ->
             forall v, fst (webhook_handler st clk text) = Success v ->
                       users (snd (webhook_handler st clk text))
                       = users st ++ [(default_user,
                                       mk_user default_user (str "Webhook User") 25
                                               (nearest 70) (nearest 170) (str "male")
                                               (str "general") default_bmr
                                               (created_now clk))])
         /\ (forall e, fst (webhook_handler st clk text) = Failure e ->
                       snd (webhook_handler st clk text) = st)).
Proof.
  split.
  - intros st clk d H. unfold log_meals. now rewrite H.
  - intros st clk text.
    destruct (startswith (strip text) (str "log ")) eqn:Hp.
    2:{ rewrite (webhook_no_prefix st clk text Hp). repeat split; discriminate. }
    destruct (cut ":"%char (slice_from 4 (strip text))) as [[l r]|] eqn:Hc.
    2:{ rewrite (webhook_no_colon st clk text Hp Hc). repeat split; discriminate. }
    rewrite (webhook_parts st clk text l r Hp Hc).
    destruct (mem _ valid_meals); cbn [negb]; [|repeat split; discriminate].
    destruct (spec_tokens r); [repeat split; discriminate|].
    destruct (provision_cases (users st) clk) as [[Hd E]|[Hd E]]; rewrite E;
      cbn [fst snd users]; repeat split; try discriminate; congruence.
Qed.

Lemma user_not_found_only_when_structured_witness :
  log_meals initial
    clock0
    (mk_logging (str "user_9_1") (str "lunch") [str "rice"])
  = (Failure UserNotFound, initial)
  /\ users (snd (webhook_handler initial
                   clock0
                   (str "log lunch: rice")))
     = [(default_user,
         mk_user default_user (str "Webhook User") 25 (nearest 70) (nearest 170)
                 (str "male") (str "general") default_bmr
                 noon)].
Proof.
  split.
  - apply (proj1 user_not_found_only_when_structured). reflexivity.
  - refine (proj1 (proj2 (proj2 (proj2 user_not_found_only_when_structured initial
                                   clock0 (str "log lunch: rice")))) eq_refl _ _).
    vm_compute. reflexivity.
Defined.

End Webhook.

(** * The spellings of a date *)
Section Spellings.

Lemma digit_char_digit (c : ascii) : digit_char (digit c) = c.
Proof.
  unfold digit_char, digit, code.
  replace (48 + (Z.of_N (N_of_ascii c) - 48)) with (Z.of_N (N_of_ascii c)) by lia.
  now rewrite N2Z.id, ascii_N_embedding.
Qed.

Lemma small_cases (k : Z) :
  0 <= k <= 9 ->
  In k [0; 1; 2; 3; 4; 5; 6; 7; 8; 9].
Proof. intros H. cbn [In]. lia. Qed.

Lemma digit_of_digit_char (k : Z) :
  0 <= k <= 9 ->
  is_digit (digit_char k) = true /\ digit (digit_char k) = k.
Proof.
  intros H. apply small_cases in H. cbn [In] in H.
  repeat (destruct H as [<-|H]; [split; reflexivity|]). contradiction.
Qed.

Lemma is_digit_range (c : ascii) : is_digit c = true -> 0 <= digit c <= 9.
Proof.
  unfold is_digit, digit. intros H. apply andb_prop in H as [H1 H2].
  apply Z.leb_le in H1, H2. lia.
Qed.

Lemma between_range (lo hi : Z) (c : ascii) :
  between lo hi c = true -> 0 <= digit c <= 9 /\ lo <= digit c <= hi.
Proof.
  unfold between. intros H. apply andb_prop in H as [H H3].
  apply andb_prop in H as [H1 H2]. apply is_digit_range in H1.
  apply Z.leb_le in H2, H3. lia.
Qed.

Lemma cut_split (sep : ascii) (s l r : pystr) :
  cut sep s = Some (l, r) -> s = l ++ sep :: r.
Proof.
  revert l; induction s as [|c s IH]; intros l; cbn [cut]; [discriminate|].
  destruct (ascii_eqb c sep) eqn:E.
  - apply ascii_eqb_eq in E. intros [= <- <-]. now subst.
  - destruct (cut sep s) as [[l' r']|]; [|discriminate].
    intros [= <- <-]. cbn [app]. f_equal. now apply IH.
Qed.

Lemma cut_join (sep : ascii) (l r : pystr) :
  contains sep l = false -> cut sep (l ++ sep :: r) = Some (l, r).
Proof.
  induction l as [|c l IH]; cbn [contains app cut]; intros H.
  - now rewrite ascii_eqb_refl.
  - apply orb_false_elim in H as [H1 H2]. now rewrite H1, IH.
Qed.

Lemma two_digits_of (a b : ascii) (n : Z) :
  0 <= digit b <= 9 -> n = 10 * digit a + digit b -> two_digits n = [a; b].
Proof.
  intros Hb ->. unfold two_digits.
  replace ((10 * digit a + digit b) / 10) with (digit a)
    by (apply Z.div_unique with (r := digit b); lia).
  replace ((10 * digit a + digit b) mod 10) with (digit b)
    by (apply Z.mod_unique with (q := digit a); lia).
  now rewrite !digit_char_digit.
Qed.

Lemma some_inj {A} (x y : A) : Some x = Some y -> x = y.
Proof. congruence. Qed.

Lemma parse_month_spelling (ms : pystr) (m : Z) :
  parse_month ms = Some m -> In ms (month_spellings m).
Proof.
  unfold parse_month, month_spellings.
  destruct ms as [|a [|b [|c ms]]]; try discriminate.
  - destruct (between 1 9 a) eqn:Ha; [|discriminate]. intros Hs; apply some_inj in Hs; subst.
    apply between_range in Ha. replace (digit a <? 10) with true by (symmetry; apply Z.ltb_lt; lia).
    right. left. now rewrite digit_char_digit.
  - destruct ((digit a =? 1) && between 0 2 b) eqn:E1.
    + apply andb_prop in E1 as [Ea Hb]. apply Z.eqb_eq in Ea.
      apply between_range in Hb. intros Hs; apply some_inj in Hs; subst. left.
      apply two_digits_of; lia.
    + destruct ((digit a =? 0) && between 1 9 b) eqn:E2; [|discriminate].
      apply andb_prop in E2 as [Ea Hb]. apply Z.eqb_eq in Ea.
      apply between_range in Hb. intros Hs; apply some_inj in Hs; subst. left.
      apply two_digits_of; lia.
Qed.

Lemma parse_day_spelling (ds : pystr) (d : Z) :
  parse_day ds = Some d -> In ds (day_spellings d).
Proof.
  unfold parse_day, day_spellings.
  destruct ds as [|a [|b [|c ds]]]; try discriminate.
  - destruct (between 1 9 a) eqn:Ha; [|discriminate]. intros Hs; apply some_inj in Hs; subst.
    apply between_range in Ha. replace (digit a <? 10) with true by (symmetry; apply Z.ltb_lt; lia).
    right. left. now rewrite digit_char_digit.
  - destruct ((digit a =? 3) && between 0 1 b) eqn:E1.
    { apply andb_prop in E1 as [Ea Hb]. apply Z.eqb_eq in Ea.
      apply between_range in Hb. intros Hs; apply some_inj in Hs; subst. left.
      apply two_digits_of; lia. }
    destruct (between 1 2 a && is_digit b) eqn:E2.
    { apply andb_prop in E2 as [Ha Hb]. apply between_range in Ha.
      apply is_digit_range in Hb. intros Hs; apply some_inj in Hs; subst. left.
      apply two_digits_of; lia. }
    destruct (((digit a =? 0) || (code a =? 32)) && between 1 9 b) eqn:E3;
      [|discriminate].
    apply andb_prop in E3 as [Ea Hb]. apply between_range in Hb.
    intros Hs; apply some_inj in Hs; subst. apply orb_prop in Ea as [Ea|Ea]; apply Z.eqb_eq in Ea.
    + left. apply two_digits_of; lia.
    + replace (digit b <? 10) with true by (symmetry; apply Z.ltb_lt; lia).
      right. right. left. rewrite digit_char_digit. f_equal.
      rewrite <- (digit_char_digit a). unfold digit. rewrite Ea. reflexivity.
Qed.

Lemma four_digits_of (y1 y2 y3 y4 : ascii) :
  is_digit y1 = true -> is_digit y2 = true ->
  is_digit y3 = true -> is_digit y4 = true ->
  four_digits (1000 * digit y1 + 100 * digit y2 + 10 * digit y3 + digit y4)
  = [y1; y2; y3; y4].
Proof.
  intros H1 H2 H3 H4.
  apply is_digit_range in H1, H2, H3, H4. unfold four_digits.
  set (y := 1000 * digit y1 + 100 * digit y2 + 10 * digit y3 + digit y4).
  replace (y / 1000) with (digit y1)
    by (apply Z.div_unique with (r := y - 1000 * digit y1); lia).
  replace (y / 100 mod 10) with (digit y2).
  2:{ replace (y / 100) with (10 * digit y1 + digit y2)
        by (apply Z.div_unique with (r := 10 * digit y3 + digit y4); lia).
      apply Z.mod_unique with (q := digit y1); lia. }
  replace (y / 10 mod 10) with (digit y3).
  2:{ replace (y / 10) with (100 * digit y1 + 10 * digit y2 + digit y3)
        by (apply Z.div_unique with (r := digit y4); lia).
      apply Z.mod_unique with (q := 10 * digit y1 + digit y2); lia. }
  replace (y mod 10) with (digit y4)
    by (apply Z.mod_unique
                    with (q := 100 * digit y1 + 10 * digit y2 + digit y3); lia).
  now rewrite !digit_char_digit.
Qed.

Lemma dash_is_dash (c : ascii) : code c = 45 -> c = "-"%char.
Proof.
  intros H. rewrite <- (digit_char_digit c). unfold digit. now rewrite H.
Qed.

(** A text that parses is a spelling of the date it parses to. *)
Lemma strptime_ymd_spelling (s : pystr) (dt : date) :
  strptime_ymd s = Some dt -> valid dt = true /\ In s (spellings dt).
Proof.
  unfold strptime_ymd.
  destruct s as [|y1 [|y2 [|y3 [|y4 [|dash rest]]]]]; try discriminate.
  destruct (is_digit y1 && is_digit y2 && is_digit y3 && is_digit y4
            && (code dash =? 45)) eqn:E; [|discriminate].
  do 4 (apply andb_prop in E as [E ?]).
  destruct (cut "-"%char rest) as [[ms ds]|] eqn:Hc; [|discriminate].
  destruct (parse_month ms) as [m|] eqn:Hm; [|discriminate].
  destruct (parse_day ds) as [d|] eqn:Hd; [|discriminate].
  cbv zeta. destruct (valid_date _ m d) eqn:Hv; [|discriminate].
  intros Hs. apply some_inj in Hs. subst dt.
  unfold valid, spellings. cbn [d_year d_month d_day]. split; [exact Hv|].
  apply in_flat_map.
  exists ms. split; [now apply parse_month_spelling|].
  apply in_map_iff. exists ds. split; [|now apply parse_day_spelling].
  unfold spell. rewrite four_digits_of by assumption.
  apply cut_split in Hc. rewrite Hc.
  match goal with H : (code dash =? 45) = true |- _ =>
    apply Z.eqb_eq, dash_is_dash in H; rewrite H end.
  reflexivity.
Qed.

Lemma in_upto (n : nat) (k : Z) : 1 <= k <= Z.of_nat n -> In k (upto n).
Proof.
  intros H. unfold upto. apply in_map_iff. exists (Z.to_nat k).
  split; [lia|]. apply in_seq. lia.
Qed.

Lemma months_parse :
  forallb (fun m =>
    forallb (fun ms =>
      match parse_month ms with
      | Some m' => (m' =? m) && negb (contains "-"%char ms)
      | None => false
      end) (month_spellings m)) (upto 12) = true.
Proof. vm_compute. reflexivity. Qed.

Lemma days_parse :
  forallb (fun d =>
    forallb (fun ds =>
      match parse_day ds with
      | Some d' => d' =? d
      | None => false
      end) (day_spellings d)) (upto 31) = true.
Proof. vm_compute. reflexivity. Qed.

Lemma month_spelling_parses (m : Z) (ms : pystr) :
  1 <= m <= 12 -> In ms (month_spellings m) ->
  parse_month ms = Some m /\ contains "-"%char ms = false.
Proof.
  intros Hm Hin.
  pose proof (proj1 (forallb_forall _ _) months_parse m (in_upto 12 m Hm)) as H.
  cbv beta in H.
  pose proof (proj1 (forallb_forall _ _) H ms Hin) as H'. cbv beta in H'.
  destruct (parse_month ms) as [m'|]; [|discriminate H'].
  apply andb_prop in H' as [H1 H2]. apply Z.eqb_eq in H1. subst m'.
  split; [reflexivity|]. now destruct (contains _ ms).
Qed.

Lemma day_spelling_parses (d : Z) (ds : pystr) :
  1 <= d <= 31 -> In ds (day_spellings d) -> parse_day ds = Some d.
Proof.
  intros Hd Hin.
  pose proof (proj1 (forallb_forall _ _) days_parse d (in_upto 31 d Hd)) as H.
  cbv beta in H.
  pose proof (proj1 (forallb_forall _ _) H ds Hin) as H'. cbv beta in H'.
  destruct (parse_day ds) as [d'|]; [|discriminate H'].
  apply Z.eqb_eq in H'. now subst d'.
Qed.

Lemma valid_date_bounds (y m d : Z) :
  valid_date y m d = true -> 1 <= y <= 9999 /\ 1 <= m <= 12 /\ 1 <= d <= 31.
Proof.
  unfold valid_date. intros H. do 5 (apply andb_prop in H as [H ?]).
  repeat match goal with E : (_ <=? _) = true |- _ => apply Z.leb_le in E end.
  assert (days_in_month y m <= 31)
    by (unfold days_in_month; repeat destruct (_ =? _); try destruct (is_leap y);
        cbn [orb]; lia).
  lia.
Qed.

Lemma four_digits_value (y : Z) :
  0 <= y <= 9999 ->
  0 <= y / 1000 <= 9 /\ 0 <= y / 100 mod 10 <= 9
  /\ 0 <= y / 10 mod 10 <= 9 /\ 0 <= y mod 10 <= 9
  /\ 1000 * (y / 1000) + 100 * (y / 100 mod 10)
     + 10 * (y / 10 mod 10) + y mod 10 = y.
Proof. intros H. Z.div_mod_to_equations. lia. Qed.

(** A spelling of a calendar date parses to that date. *)
Lemma spelling_strptime_ymd (s : pystr) (dt : date) :
  valid dt = true -> In s (spellings dt) -> strptime_ymd s = Some dt.
Proof.
  destruct dt as [y m d]. unfold valid, spellings. cbn [d_year d_month d_day].
  intros Hv Hin. destruct (valid_date_bounds y m d Hv) as (Hy & Hm & Hd).
  apply in_flat_map in Hin as (ms & Hms & Hin).
  apply in_map_iff in Hin as (ds & <- & Hds).
  destruct (month_spelling_parses m ms Hm Hms) as (Pm & Cm).
  pose proof (day_spelling_parses d ds Hd Hds) as Pd.
  assert (Hy0 : 0 <= y <= 9999) by lia.
  destruct (four_digits_value y Hy0) as (K1 & K2 & K3 & K4 & Ky).
  destruct (digit_of_digit_char _ K1) as (I1 & V1).
  destruct (digit_of_digit_char _ K2) as (I2 & V2).
  destruct (digit_of_digit_char _ K3) as (I3 & V3).
  destruct (digit_of_digit_char _ K4) as (I4 & V4).
  unfold spell, four_digits. change (str "-") with ["-"%char]. cbn [app].
  unfold strptime_ymd. rewrite I1, I2, I3, I4, V1, V2, V3, V4, Ky.
  change (code "-" =? 45) with true. cbn [andb].
  now rewrite (cut_join "-"%char ms ds Cm), Pm, Pd, Hv.
Qed.

Lemma iso_text_is_a_spelling (dt : date) : In (iso_text dt) (spellings dt).
Proof. unfold spellings, month_spellings, day_spellings. now left. Qed.

Lemma iso_text_length (dt : date) : List.length (iso_text dt) = 10%nat.
Proof. reflexivity. Qed.

End Spellings.

(** * Listing meals *)
Section Listing.

Lemma date_eqb_eq (a b : date) : date_eqb a b = true <-> a = b.
Proof.
  destruct a as [y m d], b as [y' m' d']. unfold date_eqb. cbn [d_year d_month d_day].
  rewrite !andb_true_iff, !Z.eqb_eq. split.
  - intros [[-> ->] ->]. reflexivity.
  - intros [= -> -> ->]. now repeat split.
Qed.

Lemma filter_filter {A} (f g : A -> bool) (l : list A) :
  filter f (filter g l) = filter (fun x => g x && f x) l.
Proof.
  induction l as [|x l IH]; [reflexivity|]. cbn [filter].
  destruct (g x); cbn [filter andb]; [destruct (f x)|]; now rewrite IH.
Qed.




End Listing.

(** * Identifiers are never reused *)
Section Freshness.

Lemma has_snoc_false {V} (d : dict V) (k : pystr) (v : V) (k' : pystr) :
  has (d ++ [(k, v)]) k' = false -> has d k' = false /\ k' <> k.
Proof.
  rewrite has_snoc. intros H. apply orb_false_elim in H as [H1 H2].
  split; [exact H1 | now apply str_eqb_neq].
Qed.

(** The identifiers a run issues are distinct from one another and from
    the keys the stores had when the run began. *)
Lemma run_fresh (rs : list request) :
  forall st, invariant st ->
    NoDup (fst (fst (run st rs))) /\ NoDup (snd (fst (run st rs)))
    /\ (forall k, In k (fst (fst (run st rs))) -> has (users st) k = false)
    /\ (forall k, In k (snd (fst (run st rs))) -> has (meals st) k = false).
Proof.
  induction rs as [|r rs IH]; intros st Hinv.
  - cbn. repeat split; try constructor; contradiction.
  - pose proof (invariant_next st r Hinv) as Hinv'.
    unfold next in Hinv'. cbn [run].
    destruct (handle st r) as [[ou om] st'] eqn:Hh. cbn [snd] in Hinv'.
    destruct (IH st' Hinv') as (Nu & Nm & Fu & Fm).
    destruct (run st' rs) as [[us ms] st'']. cbn [fst snd] in *.
    unfold handle in Hh. destruct r as [clk d|clk d|clk text].
    + destruct (register_user_cases st clk d Hinv) as [[e E]|(bmr & u & Hf & E)];
        rewrite E in Hh; injection Hh as <- <- <-; cbn [push]; [auto|].
      cbv zeta in Hf. cbn [users meals] in *.
      split; [|split; [exact Nm|split; [|exact Fm]]].
      * constructor; [|exact Nu]. intros Hin.
        apply Fu, has_snoc_false in Hin. now destruct Hin.
      * intros k [<-|Hin]; [exact Hf|]. now apply Fu, has_snoc_false in Hin.
    + destruct (log_meals_cases st clk d Hinv) as [[e E]|(_ & Hf & E)];
        rewrite E in Hh; injection Hh as <- <- <-; cbn [push]; [auto|].
      cbn [users meals] in *.
      split; [exact Nu|split; [|split; [exact Fu|]]].
      * constructor; [|exact Nm]. intros Hin.
        apply Fm, has_snoc_false in Hin. now destruct Hin.
      * intros k [<-|Hin]; [exact Hf|]. now apply Fm, has_snoc_false in Hin.
    + destruct (webhook_handler_cases st clk text Hinv)
        as [[e E]|(us' & mt & items & Hp & Hf & E)];
        rewrite E in Hh; injection Hh as <- <- <-; cbn [push]; [auto|].
      cbn [users meals wv_meal_id] in *.
      split; [exact Nu|split; [|split]].
      * constructor; [|exact Nm]. intros Hin.
        apply Fm, has_snoc_false in Hin. now destruct Hin.
      * intros k Hin. apply Fu in Hin.
        destruct (provision_cases (users st) clk) as [[_ Hp']|[_ Hp']];
          rewrite Hp' in Hp; injection Hp as <-; [exact Hin|].
        now apply has_snoc_false in Hin.
      * intros k [<-|Hin]; [exact Hf|]. now apply Fm, has_snoc_false in Hin.
Qed.

(** C10: in any sequence of requests from the empty stores, the user
    identifiers issued by registration are pairwise distinct, and so are
    the meal identifiers issued by the two ingestion paths, whatever the
    clock reads: each new identifier carries the size of its store plus
    one, which no earlier identifier of that store carries. *)
Theorem identifiers_never_reused (rs : list request) :
  NoDup (fst (fst (run initial rs))) /\ NoDup (snd (fst (run initial rs))).
Proof.
  destruct (run_fresh rs initial invariant_initial) as (Hu & Hm & _).
  now split.
Qed.

End Freshness.

(** * The model on sample inputs *)
Section Samples.

Example bmr_male_sample :
  calculate_bmr (nearest 70) (nearest 170) 25 (str "male") = Ok (lit 170006 100).
Proof. vm_compute. reflexivity. Qed.

Example bmr_female_sample :
  calculate_bmr (nearest 60) (nearest 165) 30 (str "female") = Ok (lit 138368 100).
Proof. vm_compute. reflexivity. Qed.

Example float_of_int_limit :
  float_of_int (int_overflow - 1) = Ok (S754_finite false (2 ^ 53 - 1) 971)
  /\ nearest int_overflow = S754_infinity false
  /\ float_of_int int_overflow = Raise OverflowError.
Proof. vm_compute. repeat split. Qed.

Example rice_and_dal :
  calculate_nutrients [str "Rice"; str " dal "]
  = mk_nutrients (PInt 246) (PFloat (lit 95 10)) (PInt 48) (PFloat (lit 79 10)).
Proof. vm_compute. reflexivity. Qed.

Example breakfast_message :
  fst (webhook_handler initial clock0 (str "log breakfast: bread, milk, banana"))
  = Success (mk_webhook_view (str "webhook_meal_1_1715947200") (str "breakfast")
               [str "bread"; str "milk"; str "banana"]
               (calculate_nutrients [str "bread"; str "milk"; str "banana"])).
Proof. vm_compute. reflexivity. Qed.

Example strptime_samples :
  strptime_ymd (str "2024-05-18") = Some (mk_date 2024 5 18)
  /\ strptime_ymd (str "2024-5-8") = Some (mk_date 2024 5 8)
  /\ strptime_ymd (str "2024-02-29") = Some (mk_date 2024 2 29)
  /\ strptime_ymd (str "2023-02-29") = None
  /\ strptime_ymd (str "2024-13-01") = None
  /\ strptime_ymd (str "2024-05-18 ") = None
  /\ strptime_ymd (str "18/05/2024") = None.
Proof. vm_compute. repeat split. Qed.

Example two_registrations_in_one_second :
  fst (fst (run initial [Register clock0 asha; Register clock0 asha]))
  = [str "user_1_1715947200"; str "user_2_1715947200"].
Proof. vm_compute. reflexivity. Qed.

Example both_paths_share_the_counter :
  snd (fst (run initial [Register clock0 asha;
                         LogMeals clock0 (mk_logging asha_id (str "Lunch") [str "rice"]);
                         Webhook clock0 (str "  log dinner: fish ")]))
  = [str "meal_1_1715947200"; str "webhook_meal_2_1715947200"].
Proof. vm_compute. reflexivity. Qed.

End Samples.

(** * Further facts on strings and numbers *)
Section Normalisation.

Lemma lower_char_idem (c : ascii) : lower_char (lower_char c) = lower_char c.
Proof. destruct c as [[] [] [] [] [] [] [] []]; reflexivity. Qed.

Lemma is_space_lower_char (c : ascii) : is_space (lower_char c) = is_space c.
Proof. destruct c as [[] [] [] [] [] [] [] []]; reflexivity. Qed.

Lemma lower_idem (s : pystr) : lower (lower s) = lower s.
Proof.
  unfold lower. rewrite map_map. apply map_ext. exact lower_char_idem.
Qed.

Lemma lstrip_lower (s : pystr) : lstrip (lower s) = lower (lstrip s).
Proof.
  induction s as [|c s IH]; [reflexivity|].
  cbn [lower map lstrip]. rewrite is_space_lower_char.
  destruct (is_space c); [exact IH | reflexivity].
Qed.

Lemma lower_rev (s : pystr) : lower (rev s) = rev (lower s).
Proof. apply map_rev. Qed.

Lemma strip_lower (s : pystr) : strip (lower s) = lower (strip s).
Proof.
  unfold strip, rstrip.
  now rewrite lstrip_lower, <- lower_rev, lstrip_lower, lower_rev.
Qed.

Lemma strip_idem (s : pystr) : strip (strip s) = strip s.
Proof.
  unfold strip at 2. rewrite strip_rstrip.
  unfold strip. now rewrite lstrip_idem.
Qed.

Lemma item_lower_lower (item : pystr) : item_lower (lower item) = item_lower item.
Proof. unfold item_lower. now rewrite lower_idem. Qed.

Lemma item_lower_strip (item : pystr) : item_lower (strip item) = item_lower item.
Proof. unfold item_lower. now rewrite <- strip_lower, strip_idem. Qed.

Lemma fold_add_item_ext (l l' : list pystr) (t : nutrients) :
  map item_lower l = map item_lower l' ->
  fold_left add_item l t = fold_left add_item l' t.
Proof.
  revert l' t; induction l as [|x l IH]; intros [|y l'] t H; try discriminate.
  - reflexivity.
  - cbn [map] in H. injection H as Hxy Hl. cbn [fold_left].
    replace (add_item t y) with (add_item t x).
    + now apply IH.
    + unfold add_item. fold (item_lower x) (item_lower y). now rewrite Hxy.
Qed.

(** ** Totals are proper numbers *)

Lemma iter_pos_keeps {A} (P : A -> Prop) (f : A -> A) :
  (forall x, P x -> P (f x)) -> forall n x, P x -> P (iter_pos f n x).
Proof.
  intros Hf. induction n as [n IH|n IH|]; intros x Hx; cbn [iter_pos]; auto.
Qed.

Lemma shr_1_nonneg (mrs : shr_record) : 0 <= shr_m mrs -> 0 <= shr_m (shr_1 mrs).
Proof.
  destruct mrs as [m r s]. cbn [shr_m]. intros H.
  destruct m as [|[p|p|]|p]; cbn; lia.
Qed.

Lemma shr_fexp_nonneg (m e : Z) (l : location) :
  0 <= m -> 0 <= shr_m (fst (shr_fexp prec emax m e l)).
Proof.
  intros H. unfold shr_fexp, shr.
  assert (H0 : 0 <= shr_m (shr_record_of_loc m l))
    by (destruct l as [|[]]; exact H).
  destruct (_ - e); cbn [fst]; try exact H0.
  apply (iter_pos_keeps (fun mrs => 0 <= shr_m mrs)); [exact shr_1_nonneg | exact H0].
Qed.

Lemma round_nearest_even_nonneg (m : Z) (l : location) :
  0 <= m -> 0 <= round_nearest_even m l.
Proof.
  intros H. unfold round_nearest_even.
  destruct l as [|[]]; try destruct (Z.even m); lia.
Qed.

Lemma binary_round_aux_proper (mx ex : Z) (lx : location) :
  0 <= mx -> proper (PFloat (binary_round_aux prec emax false mx ex lx)) = true.
Proof.
  intros H. unfold binary_round_aux.
  pose proof (shr_fexp_nonneg mx ex lx H) as H1.
  destruct (shr_fexp prec emax mx ex lx) as [mrs' e']. cbn [fst] in H1.
  pose proof (shr_fexp_nonneg _ e' loc_Exact
                (round_nearest_even_nonneg _ (loc_of_shr_record mrs') H1)) as H2.
  destruct (shr_fexp prec emax _ e' loc_Exact) as [mrs'' e'']. cbn [fst] in H2.
  destruct (shr_m mrs''); [reflexivity| |lia].
  destruct (_ <=? _); reflexivity.
Qed.

Lemma binary_round_proper (m : positive) (e : Z) :
  proper (PFloat (binary_round prec emax false m e)) = true.
Proof.
  unfold binary_round. destruct (shl_align _ _ _) as [mz ez].
  apply binary_round_aux_proper. lia.
Qed.

Lemma nearest_proper (z : Z) : 0 <= z -> proper (PFloat (nearest z)) = true.
Proof.
  intros H. unfold nearest, binary_normalize.
  destruct z as [|p|p]; [reflexivity | apply binary_round_proper | lia].
Qed.

Lemma fadd_proper (f g : flt) :
  proper (PFloat f) = true -> proper (PFloat g) = true ->
  proper (PFloat (fadd f g)) = true.
Proof.
  unfold fadd, SFadd.
  destruct f as [[|]| [|] | | [|] mf ef]; destruct g as [[|]| [|] | | [|] mg eg];
    cbn [proper nonneg negb]; try discriminate; try reflexivity.
  intros _ _.
  destruct (shl_align mf ef (Z.min ef eg)) as [m1 e1].
  destruct (shl_align mg eg (Z.min ef eg)) as [m2 e2]. cbn [fst cond_Zopp].
  apply binary_round_proper.
Qed.

Lemma add_proper (a b : num) :
  proper a = true -> proper b = true -> proper (add a b) = true.
Proof.
  destruct a as [x|f], b as [y|g]; intros Ha Hb.
  - cbn [proper add] in *. apply Z.leb_le in Ha, Hb. apply Z.leb_le. lia.
  - apply fadd_proper; [apply nearest_proper; now apply Z.leb_le | exact Hb].
  - apply fadd_proper; [exact Ha | apply nearest_proper; now apply Z.leb_le].
  - now apply fadd_proper.
Qed.

Lemma add_nutrients_proper (t n : nutrients) :
  proper_nutrients t = true -> proper_nutrients n = true ->
  proper_nutrients (add_nutrients t n) = true.
Proof.
  unfold proper_nutrients. intros Ht Hn.
  repeat (apply andb_prop in Ht as [Ht ?]).
  repeat (apply andb_prop in Hn as [Hn ?]).
  cbn [add_nutrients calories protein carbs fiber]. now rewrite !add_proper.
Qed.

Lemma food_database_proper :
  forallb proper_nutrients (values food_database) = true.
Proof. vm_compute. reflexivity. Qed.

Lemma fold_add_item_proper (l : list pystr) (t : nutrients) :
  proper_nutrients t = true -> proper_nutrients (fold_left add_item l t) = true.
Proof.
  revert t; induction l as [|x l IH]; intros t Ht; [exact Ht|].
  cbn [fold_left]. apply IH. unfold add_item.
  destruct (get food_database _) as [n|] eqn:E; [|exact Ht].
  apply add_nutrients_proper; [exact Ht|].
  apply get_In in E.
  exact (proj1 (forallb_forall _ _) food_database_proper n E).
Qed.

End Normalisation.

(** * The stores along a run *)
Section Stores.

Lemma get_entry {V} (d : dict V) (k : pystr) (v : V) :
  get d k = Some v -> In (k, v) d.
Proof.
  induction d as [|[k' v'] d IH]; cbn [get]; [discriminate|].
  destruct (PyStr.eqb k k') eqn:E.
  - apply str_eqb_eq in E. intros [= ->]. subst. now left.
  - intros H. right. now apply IH.
Qed.

Lemma get_app_l {V} (d d' : dict V) (k : pystr) (v : V) :
  get d k = Some v -> get (d ++ d') k = Some v.
Proof.
  induction d as [|[k' v'] d IH]; cbn [get app]; [discriminate|].
  destruct (PyStr.eqb k k'); [trivial | exact IH].
Qed.

Lemma has_app_l {V} (d d' : dict V) (k : pystr) :
  has d k = true -> has (d ++ d') k = true.
Proof.
  unfold has. destruct (get d k) as [v|] eqn:E; [|discriminate].
  now rewrite (get_app_l d d' k v E).
Qed.

Lemma get_fresh_snoc {V} (d : dict V) (k : pystr) (v : V) :
  has d k = false -> get (d ++ [(k, v)]) k = Some v.
Proof.
  intros H. rewrite get_snoc. unfold has in H.
  destruct (get d k); [discriminate|]. now rewrite str_eqb_refl.
Qed.

Lemma provision_provisioned (us : dict user) (clk : clock) :
  provision us clk = Ok (provisioned us clk).
Proof.
  unfold provisioned.
  destruct (provision_cases us clk) as [[H E]|[H E]]; now rewrite E, H.
Qed.

Lemma provisioned_has (us : dict user) (clk : clock) :
  has (provisioned us clk) default_user = true.
Proof.
  unfold provisioned. destruct (has us default_user) eqn:E; [exact E|].
  rewrite has_snoc, str_eqb_refl. apply orb_true_r.
Qed.

Lemma provisioned_grows (us : dict user) (clk : clock) :
  exists su, provisioned us clk = us ++ su
             /\ List.length su = (default_count (provisioned us clk) - default_count us)%nat.
Proof.
  unfold default_count. rewrite provisioned_has. unfold provisioned.
  destruct (has us default_user).
  - exists []. now rewrite app_nil_r.
  - now eexists.
Qed.

(** [register_user] in a state that satisfies the invariant. *)
Lemma register_user_exact (st : state) (clk : clock) (d : UserRegistration) :
  invariant st ->
  register_user st clk d =
  match calculate_bmr (reg_weight d) (reg_height d) (reg_age d)
                      (gender_value (reg_gender d)) with
  | Raise e => (Failure (RegistrationFailed e), st)
  | Ok bmr =>
      let user_id := user_id_of (List.length (users st) + 1) (epoch clk) in
      (Success (user_id, bmr),
       mk_state (users st ++
                   [(user_id,
                     mk_user user_id (reg_name d) (reg_age d) (reg_weight d)
                             (reg_height d) (gender_value (reg_gender d))
                             (reg_goal d) bmr (created_now clk))])
                (meals st))
  end.
Proof.
  intros Hinv. unfold register_user.
  destruct (calculate_bmr _ _ _ _) as [bmr|e]; [|reflexivity].
  cbv zeta. now rewrite set_fresh by apply fresh_user_id, Hinv.
Qed.

(** [log_meals] in a state that satisfies the invariant. *)
Lemma log_meals_exact (st : state) (clk : clock) (d : MealLogging) :
  invariant st ->
  log_meals st clk d =
  if negb (has (users st) (log_user d)) then (Failure UserNotFound, st)
  else if negb (mem (lower (log_meal d)) valid_meals)
  then (Failure InvalidMealType, st)
  else
    let n := calculate_nutrients (log_items d) in
    let meal_id := meal_id_of (List.length (meals st) + 1) (epoch clk) in
    (Success (meal_id, n),
     mk_state (users st)
       (meals st ++
          [(meal_id, mk_meal meal_id (log_user d) (lower (log_meal d))
                             (log_items d) (logged_now clk) n)])).
Proof.
  intros Hinv. unfold log_meals.
  destruct (negb (has _ _)); [reflexivity|].
  destruct (negb (mem _ _)); [reflexivity|].
  cbv zeta. now rewrite set_fresh by apply fresh_meal_id, Hinv.
Qed.

(** [webhook_handler] in a state that satisfies the invariant: it fails
    and changes nothing, or it logs the parsed meal for the default user. *)
Lemma webhook_handler_exact (st : state) (clk : clock) (text : pystr) :
  invariant st ->
  (exists e, webhook_handler st clk text = (Failure e, st))
  \/ (exists part0 part1,
        startswith (strip text) (str "log ") = true
        /\ cut ":"%char (slice_from 4 (strip text)) = Some (part0, part1)
        /\ mem (lower (strip part0)) valid_meals = true
        /\ spec_tokens part1 <> []
        /\ let meal_id := webhook_meal_id_of (List.length (meals st) + 1) (epoch clk) in
           let n := calculate_nutrients (spec_tokens part1) in
           webhook_handler st clk text
           = (Success (mk_webhook_view meal_id (lower (strip part0))
                                       (spec_tokens part1) n),
              mk_state (provisioned (users st) clk)
                (meals st ++
                   [(meal_id, mk_meal meal_id default_user (lower (strip part0))
                                      (spec_tokens part1) (logged_now clk) n)]))).
Proof.
  intros Hinv.
  destruct (startswith (strip text) (str "log ")) eqn:Hp.
  2:{ left. eexists. now apply webhook_no_prefix. }
  destruct (cut ":"%char (slice_from 4 (strip text))) as [[p0 p1]|] eqn:Hc.
  2:{ left. eexists. now apply webhook_no_colon. }
  rewrite (webhook_parts st clk text p0 p1 Hp Hc).
  destruct (mem (lower (strip p0)) valid_meals) eqn:Hm; cbn [negb];
    [|left; now eexists].
  destruct (spec_tokens p1) as [|i items] eqn:Ht; [left; now eexists|].
  right. exists p0, p1. rewrite Ht, provision_provisioned.
  do 4 (split; [first [reflexivity | assumption | discriminate]|]).
  cbv zeta. now rewrite set_fresh by apply fresh_webhook_meal_id, Hinv.
Qed.

Lemma meal_wf_grows (us su : dict user) (entry : pystr * meal) :
  meal_wf us entry -> meal_wf (us ++ su) entry.
Proof.
  intros (Hid & Ho & Hm & Hn). repeat split; auto using has_app_l.
Qed.

Lemma wellformed_initial : wellformed initial.
Proof. split; constructor. Qed.

Lemma wellformed_next (st : state) (r : request) :
  invariant st -> wellformed st -> wellformed (next st r).
Proof.
  intros Hinv [Hu Hm]. unfold next, handle. destruct r as [clk d|clk d|clk text].
  - rewrite (register_user_exact st clk d Hinv).
    destruct (calculate_bmr _ _ _ _) as [bmr|e] eqn:E; cbn [snd]; [|now split].
    split; cbn [users meals].
    + apply Forall_app. split; [exact Hu|]. constructor; [|constructor].
      split; [reflexivity | exact E].
    + eapply Forall_impl; [|exact Hm]. intros a. apply meal_wf_grows.
  - rewrite (log_meals_exact st clk d Hinv).
    destruct (has (users st) (log_user d)) eqn:Eu; cbn [negb snd]; [|now split].
    destruct (mem (lower (log_meal d)) valid_meals) eqn:Em; cbn [negb snd];
      [|now split].
    split; cbn [users meals]; [exact Hu|].
    apply Forall_app. split; [exact Hm|]. constructor; [|constructor].
    now repeat split.
  - destruct (webhook_handler_exact st clk text Hinv)
      as [[e ->]|(p0 & p1 & _ & _ & Hmt & _ & ->)]; cbn [snd]; [now split|].
    destruct (provisioned_grows (users st) clk) as (su & Hsu & _).
    split; cbn [users meals].
    + unfold provisioned. destruct (has (users st) default_user); [exact Hu|].
      apply Forall_app. split; [exact Hu|]. constructor; [|constructor].
      split; [reflexivity | exact calculate_bmr_default].
    + apply Forall_app. split.
      * rewrite Hsu. eapply Forall_impl; [|exact Hm]. intros a. apply meal_wf_grows.
      * constructor; [|constructor].
        repeat split; [apply provisioned_has | exact Hmt].
Qed.

Lemma reachable_wellformed (st : state) : reachable st -> wellformed st.
Proof.
  induction 1 as [|st r Hr IH]; [exact wellformed_initial|].
  apply wellformed_next; [now apply reachable_invariant | exact IH].
Qed.

Lemma run_cons (st : state) (r : request) (rs : list request) :
  run st (r :: rs)
  = (push (fst (fst (handle st r))) (fst (fst (run (next st r) rs))),
     push (snd (fst (handle st r))) (snd (fst (run (next st r) rs))),
     final (next st r) rs).
Proof.
  cbn [run]. unfold final, next.
  destruct (handle st r) as [[ou om] st']. cbn [fst snd].
  now destruct (run st' rs) as [[us ms] st''].
Qed.

Lemma final_cons (st : state) (r : request) (rs : list request) :
  final st (r :: rs) = final (next st r) rs.
Proof. unfold final at 1. now rewrite run_cons. Qed.

Lemma reachable_final (st : state) (rs : list request) :
  reachable st -> reachable (final st rs).
Proof.
  revert st; induction rs as [|r rs IH]; intros st H; [exact H|].
  rewrite final_cons. apply IH. now constructor.
Qed.

Lemma default_count_snoc (us : dict user) (k : pystr) (u : user) :
  k <> default_user -> default_count (us ++ [(k, u)]) = default_count us.
Proof.
  intros H. unfold default_count. rewrite has_snoc.
  replace (PyStr.eqb default_user k) with false; [now rewrite orb_false_r|].
  symmetry. apply str_eqb_neq. congruence.
Qed.

(** One request adds at most one meal, at the end of the ledger, under the
    identifier it reports. *)
Lemma next_meals (st : state) (r : request) :
  invariant st ->
  exists sm, meals (next st r) = meals st ++ sm
             /\ map fst sm = push (snd (fst (handle st r))) [].
Proof.
  intros Hinv. unfold next, handle. destruct r as [clk d|clk d|clk text].
  - rewrite (register_user_exact st clk d Hinv).
    destruct (calculate_bmr _ _ _ _); exists []; now rewrite app_nil_r.
  - rewrite (log_meals_exact st clk d Hinv).
    destruct (negb (has _ _)); [exists []; now rewrite app_nil_r|].
    destruct (negb (mem _ _)); [exists []; now rewrite app_nil_r|].
    eexists. split; reflexivity.
  - destruct (webhook_handler_exact st clk text Hinv)
      as [[e ->]|(p0 & p1 & _ & _ & _ & _ & ->)].
    + exists []. now rewrite app_nil_r.
    + eexists. split; reflexivity.
Qed.

(** One request adds to the end of the registry the user it registers, or
    the default user when it provides for it, and nothing else. *)
Lemma next_users (st : state) (r : request) :
  invariant st ->
  exists su, users (next st r) = users st ++ su
             /\ List.length su
                = (List.length (push (fst (fst (handle st r))) [])
                   + (default_count (users (next st r)) - default_count (users st)))%nat
             /\ (forall k, fst (fst (handle st r)) = Some k ->
                           has (users (next st r)) k = true).
Proof.
  intros Hinv. unfold next, handle. destruct r as [clk d|clk d|clk text].
  - rewrite (register_user_exact st clk d Hinv).
    destruct (calculate_bmr _ _ _ _); cbn [fst snd users push].
    + eexists. split; [reflexivity|]. split.
      * rewrite default_count_snoc by apply user_id_not_default.
        cbn [List.length]. lia.
      * intros k [= <-]. rewrite has_snoc, str_eqb_refl. apply orb_true_r.
    + exists []. rewrite app_nil_r. repeat split; [cbn; lia | discriminate].
  - rewrite (log_meals_exact st clk d Hinv).
    destruct (negb (has _ _)); [|destruct (negb (mem _ _))];
      cbn [fst snd users push]; exists []; rewrite app_nil_r;
      (repeat split; [cbn; lia | discriminate]).
  - destruct (webhook_handler_exact st clk text Hinv)
      as [[e ->]|(p0 & p1 & _ & _ & _ & _ & ->)]; cbn [fst snd users push].
    + exists []. rewrite app_nil_r. repeat split; [cbn; lia | discriminate].
    + destruct (provisioned_grows (users st) clk) as (su & Hsu & Hlen).
      exists su. repeat split; [exact Hsu | cbn; lia | discriminate].
Qed.

End Stores.

(** * Registration and the structured path, end to end *)
Section Journeys.

Lemma sample_reachable : reachable (final initial sample_requests).
Proof. apply reachable_final. constructor. Qed.

Lemma state_dinner_final : state_dinner = final initial sample_requests.
Proof. vm_compute. reflexivity. Qed.

Lemma state_dinner_reachable : reachable state_dinner.
Proof. rewrite state_dinner_final. exact sample_reachable. Qed.

(** X1: a successful registration, in a reachable state, files the user
    at the end of the registry under the new identifier, with the
    attributes as submitted and the BMR it returns, which is the BMR of
    those attributes; the identifier was not in use and the ledger is
    untouched. *)
Theorem registered_user_is_stored
  (st : state) (clk : clock) (d : UserRegistration)
  (user_id : pystr) (bmr : flt) (st' : state) :
  reachable st ->
  register_user st clk d = (Success (user_id, bmr), st') ->
  has (users st) user_id = false
  /\ users st'
     = users st ++ [(user_id,
                     mk_user user_id (reg_name d) (reg_age d) (reg_weight d)
                             (reg_height d) (gender_value (reg_gender d))
                             (reg_goal d) bmr (created_now clk))]
  /\ get (users st') user_id
     = Some (mk_user user_id (reg_name d) (reg_age d) (reg_weight d)
                     (reg_height d) (gender_value (reg_gender d))
                     (reg_goal d) bmr (created_now clk))
  /\ calculate_bmr (reg_weight d) (reg_height d) (reg_age d)
                   (gender_value (reg_gender d)) = Ok bmr
  /\ meals st' = meals st.
Proof.
  intros Hr H. pose proof (reachable_invariant st Hr) as Hinv.
  rewrite (register_user_exact st clk d Hinv) in H.
  destruct (calculate_bmr _ _ _ _) as [b|e] eqn:E; [|discriminate H].
  cbv zeta in H. injection H as <- <- <-.
  pose proof (fresh_user_id (users st) (epoch clk) (inv_users st Hinv)) as Hf.
  cbn [users meals]. repeat split; [exact Hf | now apply get_fresh_snoc].
Qed.

Lemma registered_user_is_stored_witness :
  get (users state_asha) asha_id
  = Some (mk_user asha_id (str "Asha") 30 (nearest 60) (nearest 165) (str "female")
                  (str "fitness") (lit 138368 100) noon).
Proof.
  refine (proj1 (proj2 (proj2
            (registered_user_is_stored initial clock0 asha asha_id (lit 138368 100)
               state_asha reachable_initial _)))).
  vm_compute. reflexivity.
Defined.

(** X2: right after a successful registration the status of the new user
    shows the submitted name, the returned BMR, all-zero totals and no
    meal, and the listing of its meals is empty. *)
Theorem new_user_has_empty_status
  (st : state) (clk : clock) (d : UserRegistration)
  (user_id : pystr) (bmr : flt) (st' : state) :
  reachable st ->
  register_user st clk d = (Success (user_id, bmr), st') ->
  get_user_status st' user_id
  = Success (mk_status_view user_id (reg_name d) bmr
               (mk_nutrients (PInt 0) (PInt 0) (PInt 0) (PInt 0)) 0)
  /\ get_user_meals st' user_id None = Success (mk_meals_view user_id [] 0).
Proof.
  intros Hr H. pose proof (reachable_invariant st Hr) as Hinv.
  rewrite (register_user_exact st clk d Hinv) in H.
  destruct (calculate_bmr _ _ _ _) as [b|e] eqn:E; [|discriminate H].
  cbv zeta in H. injection H as <- <- <-.
  pose proof (fresh_user_id (users st) (epoch clk) (inv_users st Hinv)) as Hf.
  assert (Hm : forall us,
             meals_of (mk_state us (meals st))
                      (user_id_of (List.length (users st) + 1) (epoch clk)) = []).
  { intros us. unfold meals_of. cbn [meals].
    exact (no_meals_of_unknown _ (users st) _ (inv_owner st Hinv) Hf). }
  split.
  - unfold get_user_status. cbn [users]. rewrite (get_fresh_snoc _ _ _ Hf), Hm.
    reflexivity.
  - unfold get_user_meals. cbn [users].
    rewrite has_snoc, str_eqb_refl, orb_true_r, Hm. reflexivity.
Qed.

Lemma new_user_has_empty_status_witness :
  get_user_status state_asha asha_id
  = Success (mk_status_view asha_id (str "Asha") (lit 138368 100)
               (mk_nutrients (PInt 0) (PInt 0) (PInt 0) (PInt 0)) 0).
Proof.
  refine (proj1 (new_user_has_empty_status initial clock0 asha asha_id
                   (lit 138368 100) state_asha reachable_initial _)).
  vm_compute. reflexivity.
Defined.

(** X3: registration never fails on the gender, which is one of the two
    enumerated values: it succeeds, with the identifier built from the size
    of the registry plus one, whenever the age converts to a float, and
    fails with the conversion's overflow, changing nothing, otherwise. *)
Theorem registration_fails_only_on_overflow
  (st : state) (clk : clock) (d : UserRegistration) :
  (Z.abs (reg_age d) < int_overflow ->
   exists bmr st',
     register_user st clk d
     = (Success (user_id_of (List.length (users st) + 1) (epoch clk), bmr), st'))
  /\ (int_overflow <= Z.abs (reg_age d) ->
      register_user st clk d = (Failure (RegistrationFailed OverflowError), st)).
Proof.
  unfold register_user, calculate_bmr, float_of_int.
  split; intros H.
  - apply Z.ltb_lt in H. rewrite H.
    destruct (reg_gender d); cbn [gender_value bind];
      [change (PyStr.eqb (lower (str "male")) (str "male")) with true
      |change (PyStr.eqb (lower (str "female")) (str "male")) with false;
       change (PyStr.eqb (lower (str "female")) (str "female")) with true];
      cbv iota; now eexists _, _.
  - apply Z.ltb_ge in H. rewrite H.
    destruct (reg_gender d); cbn [gender_value bind];
      [change (PyStr.eqb (lower (str "male")) (str "male")) with true
      |change (PyStr.eqb (lower (str "female")) (str "male")) with false;
       change (PyStr.eqb (lower (str "female")) (str "female")) with true];
      reflexivity.
Qed.

Lemma registration_fails_only_on_overflow_witness :
  (exists bmr st',
      register_user initial clock0 asha = (Success (user_id_of 1 (epoch clock0), bmr), st'))
  /\ register_user initial clock0
       (mk_registration (str "Old") (2 ^ 1024) (nearest 60) (nearest 165) male (str "rest"))
     = (Failure (RegistrationFailed OverflowError), initial).
Proof.
  split.
  - apply (proj1 (registration_fails_only_on_overflow initial clock0 asha)).
    reflexivity.
  - apply (proj2 (registration_fails_only_on_overflow initial clock0 _)).
    intros H. discriminate H.
Defined.

(** X4: a successful structured log, in a reachable state, appends one
    meal to the ledger: the listing of the user's meals is the listing
    before with the new meal at the end.  The new meal is filed under the
    returned identifier, keeps the food items exactly as submitted, carries
    the lowercase meal type and the returned totals, which are those of the
    items. *)
Theorem logged_meal_is_listed
  (st : state) (clk : clock) (d : MealLogging)
  (meal_id : pystr) (n : nutrients) (st' : state) :
  reachable st ->
  log_meals st clk d = (Success (meal_id, n), st') ->
  let m := mk_meal meal_id (log_user d) (lower (log_meal d)) (log_items d)
                   (logged_now clk) n in
  n = calculate_nutrients (log_items d)
  /\ has (meals st) meal_id = false
  /\ get (meals st') meal_id = Some m
  /\ users st' = users st
  /\ get_user_meals st' (log_user d) None
     = Success (mk_meals_view (log_user d) (meals_of st (log_user d) ++ [m])
                  (S (List.length (meals_of st (log_user d))))).
Proof.
  intros Hr H m. pose proof (reachable_invariant st Hr) as Hinv.
  rewrite (log_meals_exact st clk d Hinv) in H.
  destruct (has (users st) (log_user d)) eqn:Hu; cbn [negb] in H; [|discriminate H].
  destruct (mem _ valid_meals); cbn [negb] in H; [|discriminate H].
  cbv zeta in H. injection H as <- <- <-. subst m.
  pose proof (fresh_meal_id (meals st) (epoch clk) (inv_meals st Hinv)) as Hf.
  cbn [users meals]. repeat split; [exact Hf | now apply get_fresh_snoc |].
  unfold get_user_meals, meals_of. cbn [users meals]. rewrite Hu. cbn [negb].
  rewrite values_snoc, filter_app. cbn [filter m_user_id].
  rewrite str_eqb_refl, length_app. cbn [List.length].
  do 2 f_equal. lia.
Qed.

Lemma logged_meal_is_listed_witness :
  exists m1 m2,
    get_user_meals state_dinner asha_id None
    = Success (mk_meals_view asha_id [m1; m2] 2)
    /\ m_food_items m2 = [str "chicken"].
Proof.
  destruct (logged_meal_is_listed state_lunch clock1
              (mk_logging asha_id (str "dinner") [str "chicken"])
              (meal_id_of 2 (epoch clock1)) (calculate_nutrients [str "chicken"])
              state_dinner)
    as (_ & _ & _ & _ & H).
  - change state_lunch with (final initial (firstn 2 sample_requests)).
    apply reachable_final. constructor.
  - vm_compute. reflexivity.
  - eexists _, _. split; [exact H | reflexivity].
Defined.

(** X5: the two queries agree.  For an unknown user both fail with
    [UserNotFound], whatever the date filter; for a registered user both
    succeed, the status counts the meals the unfiltered listing returns and
    its totals are the sum of their totals, and the listing's count is the
    length of its list. *)
Theorem queries_agree (st : state) (user : pystr) :
  (has (users st) user = false ->
   get_user_status st user = Failure UserNotFound
   /\ forall date, get_user_meals st user date = Failure UserNotFound)
  /\ (has (users st) user = true ->
      exists v s,
        get_user_meals st user None = Success v
        /\ get_user_status st user = Success s
        /\ mv_total_meals v = List.length (mv_meals v)
        /\ sv_total_meals s = mv_total_meals v
        /\ sv_consumed_nutrients s = consumed (mv_meals v)).
Proof.
  unfold get_user_status, get_user_meals, has.
  destruct (get (users st) user) as [u|]; split; intros H; try discriminate H.
  - cbn [negb]. eexists _, _. repeat split.
  - split; [reflexivity|]. intros date. reflexivity.
Qed.

Lemma queries_agree_witness :
  (get_user_status state_dinner (str "user_7_1") = Failure UserNotFound
   /\ forall date, get_user_meals state_dinner (str "user_7_1") date = Failure UserNotFound)
  /\ exists v s,
       get_user_meals state_dinner asha_id None = Success v
       /\ get_user_status state_dinner asha_id = Success s
       /\ mv_total_meals v = List.length (mv_meals v)
       /\ sv_total_meals s = mv_total_meals v
       /\ sv_consumed_nutrients s = consumed (mv_meals v).
Proof.
  split.
  - apply (proj1 (queries_agree state_dinner (str "user_7_1"))). reflexivity.
  - apply (proj2 (queries_agree state_dinner asha_id)). reflexivity.
Defined.

End Journeys.

(** * What every reachable state satisfies *)
Section Reachable.

Lemma default_count_app (us su : dict user) :
  (default_count us <= default_count (us ++ su))%nat.
Proof.
  unfold default_count. destruct (has us default_user) eqn:E; [|lia].
  now rewrite (has_app_l us su default_user E).
Qed.

Lemma length_push (o : option pystr) (l : list pystr) :
  List.length (push o l) = (List.length (push o []) + List.length l)%nat.
Proof. now destruct o. Qed.

Lemma run_counts (rs : list request) :
  forall st, reachable st ->
    List.length (meals (final st rs))
    = (List.length (meals st) + List.length (snd (fst (run st rs))))%nat
    /\ (List.length (users (final st rs)) + default_count (users st)
        = List.length (users st) + List.length (fst (fst (run st rs)))
          + default_count (users (final st rs)))%nat
    /\ (default_count (users st) <= default_count (users (final st rs)))%nat.
Proof.
  induction rs as [|r rs IH]; intros st Hr.
  - unfold final. cbn [run fst snd List.length]. lia.
  - pose proof (reachable_invariant st Hr) as Hinv.
    destruct (IH (next st r) (reachable_next st r Hr)) as (Hm & Hu & Hd).
    destruct (next_meals st r Hinv) as (sm & Esm & Ksm).
    destruct (next_users st r Hinv) as (su & Esu & Lsu & _).
    pose proof (default_count_app (users st) su) as Hd0. rewrite <- Esu in Hd0.
    apply (f_equal (@List.length _)) in Ksm. rewrite length_map in Ksm.
    apply (f_equal (@List.length _)) in Esm, Esu. rewrite length_app in Esm, Esu.
    rewrite final_cons, run_cons. cbn [fst snd].
    rewrite (length_push (fst (fst (handle st r)))),
            (length_push (snd (fst (handle st r)))).
    lia.
Qed.

Lemma run_grows (rs : list request) :
  forall st, reachable st ->
    exists su sm, users (final st rs) = users st ++ su
                  /\ meals (final st rs) = meals st ++ sm.
Proof.
  induction rs as [|r rs IH]; intros st Hr.
  - exists [], []. unfold final. cbn [run snd]. now rewrite !app_nil_r.
  - pose proof (reachable_invariant st Hr) as Hinv.
    destruct (IH (next st r) (reachable_next st r Hr)) as (su' & sm' & Eu' & Em').
    destruct (next_meals st r Hinv) as (sm & Esm & _).
    destruct (next_users st r Hinv) as (su & Esu & _).
    rewrite final_cons, Eu', Em', Esu, Esm, <- !app_assoc. now eexists _, _.
Qed.

Lemma run_stored (rs : list request) :
  forall st, reachable st ->
    (forall k, In k (fst (fst (run st rs))) -> has (users (final st rs)) k = true)
    /\ (forall k, In k (snd (fst (run st rs))) -> has (meals (final st rs)) k = true).
Proof.
  induction rs as [|r rs IH]; intros st Hr.
  - cbn [run fst snd]. split; intros k [].
  - pose proof (reachable_invariant st Hr) as Hinv.
    pose proof (reachable_next st r Hr) as Hr'.
    destruct (IH (next st r) Hr') as (Hu & Hm).
    destruct (run_grows rs (next st r) Hr') as (su' & sm' & Eu' & Em').
    destruct (next_meals st r Hinv) as (sm & Esm & Ksm).
    destruct (next_users st r Hinv) as (su & _ & _ & Hou).
    rewrite final_cons, run_cons. cbn [fst snd]. split; intros k Hk.
    + destruct (fst (fst (handle st r))) as [k0|]; cbn [push] in Hk; [|now apply Hu].
      destruct Hk as [<-|Hk]; [|now apply Hu].
      rewrite Eu'. apply has_app_l. now apply Hou.
    + destruct (snd (fst (handle st r))) as [k0|]; cbn [push] in Hk, Ksm;
        [|now apply Hm].
      destruct Hk as [<-|Hk]; [|now apply Hm].
      rewrite Em', Esm. apply has_app_l, has_In. unfold keys.
      rewrite map_app, Ksm. apply in_or_app. right. now left.
Qed.

(** X6: at any point of a run from the empty stores, the meal count of the
    health check is the number of meal identifiers issued so far, and the
    user count is the number of user identifiers issued so far, plus one
    once the default user is there: no entry is lost or overwritten. *)
Theorem health_check_counts (rs : list request) (now : datetime) :
  hv_meals_count (health_check (final initial rs) now)
  = List.length (snd (fst (run initial rs)))
  /\ hv_users_count (health_check (final initial rs) now)
     = (List.length (fst (fst (run initial rs)))
        + default_count (users (final initial rs)))%nat.
Proof.
  destruct (run_counts rs initial reachable_initial) as (Hm & Hu & _).
  cbn [health_check hv_meals_count hv_users_count].
  cbn [initial users meals List.length] in Hm, Hu.
  change (default_count []) with 0%nat in Hu. lia.
Qed.

(** X7: in every reachable state each meal of the ledger is filed under
    its own identifier, belongs to a user of the registry, has one of the
    three meal types, in lowercase, and carries the totals of its own food
    items. *)
Theorem stored_meals_are_wellformed (st : state) (k : pystr) (m : meal) :
  reachable st ->
  get (meals st) k = Some m ->
  m_id m = k
  /\ has (users st) (m_user_id m) = true
  /\ mem (m_meal_type m) valid_meals = true
  /\ m_nutrients m = calculate_nutrients (m_food_items m).
Proof.
  intros Hr Hg. apply get_entry in Hg.
  pose proof (wf_meals st (reachable_wellformed st Hr)) as H.
  rewrite Forall_forall in H. exact (H _ Hg).
Qed.

Lemma stored_meals_are_wellformed_witness :
  m_id dinner_meal = meal_id_of 2 (epoch clock1)
  /\ has (users state_dinner) (m_user_id dinner_meal) = true
  /\ mem (m_meal_type dinner_meal) valid_meals = true
  /\ m_nutrients dinner_meal = calculate_nutrients (m_food_items dinner_meal).
Proof.
  apply (stored_meals_are_wellformed state_dinner (meal_id_of 2 (epoch clock1))
           dinner_meal state_dinner_reachable).
  vm_compute. reflexivity.
Defined.

(** X8: in every reachable state each user of the registry is filed under
    its own identifier and its stored BMR is the BMR of its stored weight,
    height, age and gender. *)
Theorem stored_users_are_wellformed (st : state) (k : pystr) (u : user) :
  reachable st ->
  get (users st) k = Some u ->
  u_id u = k
  /\ calculate_bmr (u_weight u) (u_height u) (u_age u) (u_gender u) = Ok (u_bmr u).
Proof.
  intros Hr Hg. apply get_entry in Hg.
  pose proof (wf_users st (reachable_wellformed st Hr)) as H.
  rewrite Forall_forall in H. exact (H _ Hg).
Qed.

Lemma stored_users_are_wellformed_witness :
  u_id asha_user = asha_id
  /\ calculate_bmr (u_weight asha_user) (u_height asha_user) (u_age asha_user)
                   (u_gender asha_user)
     = Ok (u_bmr asha_user).
Proof.
  apply (stored_users_are_wellformed state_dinner asha_id asha_user
           state_dinner_reachable).
  vm_compute. reflexivity.
Defined.

(** X9: the stores only grow.  Whatever requests follow a reachable state,
    the registry and the ledger keep their entries, in order, and add new
    ones at the end; so every identifier keeps the record it was given. *)
Theorem stores_only_grow (st : state) (rs : list request) :
  reachable st ->
  (exists su, users (final st rs) = users st ++ su)
  /\ (exists sm, meals (final st rs) = meals st ++ sm)
  /\ (forall k u, get (users st) k = Some u -> get (users (final st rs)) k = Some u)
  /\ (forall k m, get (meals st) k = Some m -> get (meals (final st rs)) k = Some m).
Proof.
  intros Hr. destruct (run_grows rs st Hr) as (su & sm & Eu & Em).
  rewrite Eu, Em. repeat split; eauto using get_app_l.
Qed.

Lemma stores_only_grow_witness :
  get (users (final state_dinner [sample_message])) asha_id = Some asha_user
  /\ get (meals (final state_dinner [sample_message])) (meal_id_of 2 (epoch clock1))
     = Some dinner_meal.
Proof.
  destruct (stores_only_grow state_dinner [sample_message] state_dinner_reachable)
    as (_ & _ & Hu & Hm).
  split; [apply Hu | apply Hm]; vm_compute; reflexivity.
Defined.

(** X10: every identifier a run from the empty stores has issued is a key
    of its store at the end of the run, and the record found there carries
    that identifier. *)
Theorem issued_identifiers_are_stored (rs : list request) :
  (forall k, In k (fst (fst (run initial rs))) ->
             exists u, get (users (final initial rs)) k = Some u /\ u_id u = k)
  /\ (forall k, In k (snd (fst (run initial rs))) ->
                exists m, get (meals (final initial rs)) k = Some m /\ m_id m = k).
Proof.
  destruct (run_stored rs initial reachable_initial) as (Hu & Hm).
  pose proof (reachable_wellformed _ (reachable_final initial rs reachable_initial))
    as [Wu Wm].
  rewrite Forall_forall in Wu, Wm.
  split; intros k Hk.
  - apply Hu in Hk. unfold has in Hk.
    destruct (get (users (final initial rs)) k) as [u|] eqn:E; [|discriminate].
    exists u. split; [reflexivity|]. exact (proj1 (Wu _ (get_entry _ _ _ E))).
  - apply Hm in Hk. unfold has in Hk.
    destruct (get (meals (final initial rs)) k) as [m|] eqn:E; [|discriminate].
    exists m. split; [reflexivity|]. exact (proj1 (Wm _ (get_entry _ _ _ E))).
Qed.

Lemma issued_identifiers_are_stored_witness :
  exists m, get (meals (final initial sample_requests)) (str "meal_2_1716062400") = Some m
            /\ m_id m = str "meal_2_1716062400".
Proof.
  apply (proj2 (issued_identifiers_are_stored sample_requests)).
  vm_compute. right. left. reflexivity.
Defined.

Lemma queries_ext (st st' : state) (user : pystr) :
  get (users st') user = get (users st) user ->
  meals_of st' user = meals_of st user ->
  get_user_status st' user = get_user_status st user
  /\ forall date, get_user_meals st' user date = get_user_meals st user date.
Proof.
  intros Hu Hm. unfold get_user_status, get_user_meals, has.
  now rewrite Hu, Hm.
Qed.

(** X11: a request changes nothing for the other users.  For a user of a
    reachable state, a registration, a structured log for another user, or
    a free-text message when the user is not the default one, leaves the
    user's status and listings, with any date filter, as they were. *)
Theorem other_users_are_unaffected (st : state) (r : request) (user : pystr) :
  reachable st ->
  has (users st) user = true ->
  target r <> Some user ->
  get_user_status (next st r) user = get_user_status st user
  /\ forall date, get_user_meals (next st r) user date = get_user_meals st user date.
Proof.
  intros Hr Hu Ht. pose proof (reachable_invariant st Hr) as Hinv.
  assert (Hg : forall su, get (users st ++ su) user = get (users st) user).
  { intros su. unfold has in Hu. destruct (get (users st) user) eqn:E; [|discriminate].
    now apply get_app_l. }
  assert (Hm : forall us k m, m_user_id m <> user ->
                 meals_of (mk_state us (meals st ++ [(k, m)])) user = meals_of st user).
  { intros us k m Hne. unfold meals_of. cbn [meals].
    rewrite values_snoc, filter_app. cbn [filter].
    apply str_eqb_neq in Hne. rewrite Hne. apply app_nil_r. }
  unfold next, handle. destruct r as [clk d|clk d|clk text]; cbn [target] in Ht.
  - rewrite (register_user_exact st clk d Hinv).
    destruct (calculate_bmr _ _ _ _); cbn [snd]; [|now split].
    apply queries_ext; [apply Hg | reflexivity].
  - rewrite (log_meals_exact st clk d Hinv).
    destruct (negb (has _ _)); [now split|].
    destruct (negb (mem _ _)); [now split|]. cbn [snd].
    apply queries_ext; [reflexivity|]. apply Hm. cbn [m_user_id]. congruence.
  - destruct (webhook_handler_exact st clk text Hinv)
      as [[e ->]|(p0 & p1 & _ & _ & _ & _ & ->)]; cbn [snd]; [now split|].
    destruct (provisioned_grows (users st) clk) as (su & -> & _).
    apply queries_ext; [apply Hg|]. apply Hm. cbn [m_user_id]. congruence.
Qed.

Lemma other_users_are_unaffected_witness :
  get_user_status (next state_dinner sample_message) asha_id
  = get_user_status state_dinner asha_id.
Proof.
  refine (proj1 (other_users_are_unaffected state_dinner sample_message asha_id
                   state_dinner_reachable eq_refl _)).
  intros H. vm_compute in H. discriminate H.
Defined.

End Reachable.

(** * Names, messages and totals *)
Section Tolerance.

Lemma get_set_same {V} (d : dict V) (k : pystr) (v : V) : get (set d k v) k = Some v.
Proof.
  induction d as [|[k' v'] d IH]; cbn [set get].
  - now rewrite str_eqb_refl.
  - destruct (PyStr.eqb k k') eqn:E; cbn [get]; rewrite E; [reflexivity | exact IH].
Qed.

Lemma spec_tokens_trimmed (right : pystr) :
  Forall (fun item => item <> [] /\ strip item = item) (spec_tokens right).
Proof.
  unfold spec_tokens. apply Forall_forall. intros item Hin.
  apply filter_In in Hin as [Hin Ht]. apply in_map_iff in Hin as (x & <- & _).
  split; [|apply strip_idem]. intros E. rewrite E in Ht. discriminate Ht.
Qed.

Lemma valid_meals_lower (t : pystr) :
  mem t valid_meals = true -> lower t = t.
Proof.
  unfold mem, valid_meals. cbn [existsb]. rewrite !orb_true_iff, !str_eqb_eq.
  intros [->|[->|[->|H]]]; [reflexivity..|discriminate H].
Qed.

(** What a successful free-text request returns and stores, in any state. *)
Lemma webhook_success (st : state) (clk : clock) (text : pystr)
      (v : webhook_view) (st' : state) :
  webhook_handler st clk text = (Success v, st') ->
  exists part0 part1,
    startswith (strip text) (str "log ") = true
    /\ cut ":"%char (slice_from 4 (strip text)) = Some (part0, part1)
    /\ mem (lower (strip part0)) valid_meals = true
    /\ spec_tokens part1 <> []
    /\ v = mk_webhook_view
             (webhook_meal_id_of (List.length (meals st) + 1) (epoch clk))
             (lower (strip part0)) (spec_tokens part1)
             (calculate_nutrients (spec_tokens part1))
    /\ st' = mk_state (provisioned (users st) clk)
               (set (meals st) (wv_meal_id v)
                  (mk_meal (wv_meal_id v) default_user (wv_meal_type v)
                           (wv_food_items v) (logged_now clk) (wv_nutrients v))).
Proof.
  intros H.
  destruct (startswith (strip text) (str "log ")) eqn:Hp.
  2:{ rewrite (webhook_no_prefix st clk text Hp) in H. discriminate H. }
  destruct (cut ":"%char (slice_from 4 (strip text))) as [[p0 p1]|] eqn:Hc.
  2:{ rewrite (webhook_no_colon st clk text Hp Hc) in H. discriminate H. }
  rewrite (webhook_parts st clk text p0 p1 Hp Hc) in H.
  destruct (mem (lower (strip p0)) valid_meals) eqn:Hm; cbn [negb] in H;
    [|discriminate H].
  destruct (spec_tokens p1) as [|i items] eqn:Ht; [discriminate H|].
  rewrite provision_provisioned in H. cbv zeta in H. injection H as <- <-.
  exists p0, p1. rewrite Ht. do 3 (split; [first [reflexivity | assumption]|]).
  split; [discriminate|]. split; reflexivity.
Qed.

(** X12: [calculate_nutrients] looks names up by their lowercase, trimmed
    form only: two lists whose names agree in that form have the same
    totals, so changing the case of the names or padding them with
    whitespace changes nothing. *)
Theorem aggregation_ignores_case_and_padding :
  (forall l l' : list pystr,
      map item_lower l = map item_lower l' ->
      calculate_nutrients l = calculate_nutrients l')
  /\ (forall l, calculate_nutrients (map lower l) = calculate_nutrients l)
  /\ (forall l, calculate_nutrients (map strip l) = calculate_nutrients l).
Proof.
  assert (H : forall l l' : list pystr,
             map item_lower l = map item_lower l' ->
             calculate_nutrients l = calculate_nutrients l')
    by (intros l l'; apply fold_add_item_ext).
  split; [exact H|]. split; intros l; apply H; rewrite map_map; apply map_ext.
  - exact item_lower_lower.
  - exact item_lower_strip.
Qed.

Lemma aggregation_ignores_case_and_padding_witness :
  calculate_nutrients [str "  RICE "; str "Dal"]
  = calculate_nutrients [str "rice"; str "dal"].
Proof.
  apply (proj1 aggregation_ignores_case_and_padding). reflexivity.
Defined.

(** X13: the calories total is always an integer, never a float: it is the
    exact sum of the table's calories of the recognised names, it is not
    negative, and the calories of two lists put together are the sum of
    their calories. *)
Theorem calories_are_an_exact_sum :
  (forall l, calories (calculate_nutrients l) = PInt (zsum (map calories_of l))
             /\ 0 <= zsum (map calories_of l))
  /\ (forall l1 l2,
         calories (calculate_nutrients (l1 ++ l2))
         = add (calories (calculate_nutrients l1)) (calories (calculate_nutrients l2))).
Proof.
  assert (H : forall l, calories (calculate_nutrients l)
                        = PInt (zsum (map calories_of l))).
  { intros l. unfold calculate_nutrients.
    now rewrite (fold_add_item_calories l zero_nutrients 0) by reflexivity. }
  split.
  - intros l. split; [apply H|].
    pose proof (calculate_nutrients_good l) as Hg. unfold good_nutrients in Hg.
    repeat (apply andb_prop in Hg as [Hg _]). rewrite H in Hg.
    now apply Z.leb_le.
  - intros l1 l2. rewrite !H. cbn [add]. f_equal.
    rewrite map_app. unfold zsum. rewrite fold_right_app.
    induction (map calories_of l1) as [|x xs IH]; cbn [fold_right]; lia.
Qed.

(** X14: no total is ever negative or a NaN: not the totals
    [calculate_nutrients] returns, for any list of names, and not those the
    status query returns, for any user of any reachable state. *)
Theorem totals_are_proper_numbers :
  (forall l, proper_nutrients (calculate_nutrients l) = true)
  /\ (forall (st : state) (user : pystr) (s : status_view),
         reachable st ->
         get_user_status st user = Success s ->
         proper_nutrients (sv_consumed_nutrients s) = true).
Proof.
  assert (H : forall l, proper_nutrients (calculate_nutrients l) = true)
    by (intros l; now apply fold_add_item_proper).
  split; [exact H|].
  intros st user s Hr Hs. unfold get_user_status in Hs.
  destruct (get (users st) user) as [u|]; [|discriminate Hs].
  injection Hs as <-. cbn [sv_consumed_nutrients].
  pose proof (wf_meals st (reachable_wellformed st Hr)) as Hwf.
  assert (Hall : Forall (fun m => proper_nutrients (m_nutrients m) = true)
                        (meals_of st user)).
  { apply Forall_forall. intros m Hin. unfold meals_of in Hin.
    apply filter_In in Hin as [Hin _]. unfold values in Hin.
    apply in_map_iff in Hin as ([k m'] & E & Hin). cbn [snd] in E. subst m'.
    rewrite Forall_forall in Hwf. destruct (Hwf _ Hin) as (_ & _ & _ & E).
    cbn [snd] in E. rewrite E. apply H. }
  unfold consumed.
  assert (Hfold : forall l t,
             Forall (fun m => proper_nutrients (m_nutrients m) = true) l ->
             proper_nutrients t = true ->
             proper_nutrients
               (fold_left (fun total m => add_nutrients total (m_nutrients m)) l t)
             = true).
  { induction l as [|m l IH]; intros t Hl Ht; [exact Ht|].
    inversion Hl; subst. cbn [fold_left]. apply IH; [assumption|].
    now apply add_nutrients_proper. }
  now apply Hfold.
Qed.

Lemma totals_are_proper_numbers_witness :
  exists s, get_user_status state_dinner asha_id = Success s
            /\ proper_nutrients (sv_consumed_nutrients s) = true.
Proof.
  eexists. split; [vm_compute; reflexivity|].
  refine (proj2 totals_are_proper_numbers state_dinner asha_id _
            state_dinner_reachable _).
  vm_compute. reflexivity.
Defined.

(** X15: whitespace around a free-text message does not matter: the
    handler does to the trimmed message what it does to the message. *)
Theorem webhook_ignores_outer_whitespace (st : state) (clk : clock) (text : pystr) :
  webhook_handler st clk (strip text) = webhook_handler st clk text.
Proof. unfold webhook_handler. now rewrite strip_idem. Qed.

(** X16: what a successful free-text request returns.  The meal type is
    one of the three, in lowercase; there is at least one food item, each
    non-empty and free of surrounding whitespace; the totals are those of
    the items; the default user is registered afterwards and the meal is
    filed for it under the returned identifier, with the returned fields. *)
Theorem webhook_success_view (st : state) (clk : clock) (text : pystr)
        (v : webhook_view) (st' : state) :
  webhook_handler st clk text = (Success v, st') ->
  mem (wv_meal_type v) valid_meals = true
  /\ wv_food_items v <> []
  /\ Forall (fun item => item <> [] /\ strip item = item) (wv_food_items v)
  /\ wv_nutrients v = calculate_nutrients (wv_food_items v)
  /\ has (users st') default_user = true
  /\ get (meals st') (wv_meal_id v)
     = Some (mk_meal (wv_meal_id v) default_user (wv_meal_type v) (wv_food_items v)
                     (logged_now clk) (wv_nutrients v)).
Proof.
  intros H.
  destruct (webhook_success st clk text v st' H)
    as (p0 & p1 & _ & _ & Hm & Hne & Hv & ->).
  rewrite Hv. cbn [wv_meal_type wv_food_items wv_nutrients wv_meal_id users meals].
  repeat split; auto using spec_tokens_trimmed, provisioned_has, get_set_same.
Qed.

Lemma webhook_success_view_witness :
  exists v st',
    webhook_handler state_dinner clock1 (str " log Dinner : Fish,  salad ,")
    = (Success v, st')
    /\ wv_meal_type v = str "dinner"
    /\ wv_food_items v = [str "Fish"; str "salad"]
    /\ wv_nutrients v = calculate_nutrients (wv_food_items v).
Proof.
  eexists _, _. split; [vm_compute; reflexivity|].
  split; [reflexivity|]. split; [reflexivity|].
  refine (proj1 (proj2 (proj2 (proj2
            (webhook_success_view state_dinner clock1
               (str " log Dinner : Fish,  salad ,") _ _ _))))).
  vm_compute. reflexivity.
Defined.

(** X17: the two paths agree.  What a successful free-text request
    returned can be logged again through the structured path, for the
    default user, at any later time: the structured path accepts the
    returned meal type and items and returns the same totals. *)
Theorem webhook_replays_on_structured_path
        (st : state) (clk clk' : clock) (text : pystr)
        (v : webhook_view) (st' : state) :
  webhook_handler st clk text = (Success v, st') ->
  exists st'',
    log_meals st' clk'
      (mk_logging default_user (wv_meal_type v) (wv_food_items v))
    = (Success (meal_id_of (List.length (meals st') + 1) (epoch clk'),
                wv_nutrients v), st'').
Proof.
  intros H.
  destruct (webhook_success st clk text v st' H)
    as (p0 & p1 & _ & _ & Hm & _ & Hv & Hst).
  assert (Hu : has (users st') default_user = true)
    by (rewrite Hst; apply provisioned_has).
  assert (Ht : wv_meal_type v = lower (strip p0)) by now rewrite Hv.
  assert (Hn : wv_nutrients v = calculate_nutrients (wv_food_items v))
    by now rewrite Hv.
  unfold log_meals. cbn [log_user log_meal log_items].
  rewrite Hu, Ht, lower_idem, Hm, <- Hn. cbn [negb]. now eexists.
Qed.

Lemma webhook_replays_on_structured_path_witness :
  exists st'',
    log_meals (next state_dinner sample_message) clock1
      (mk_logging default_user (str "dinner") [str "Fish"; str "salad"])
    = (Success (str "meal_4_1716062400",
                calculate_nutrients [str "Fish"; str "salad"]), st'').
Proof.
  refine (webhook_replays_on_structured_path state_dinner clock1 clock1
            (str " log Dinner : Fish,  salad ,")
            (mk_webhook_view (webhook_meal_id_of 3 (epoch clock1)) (str "dinner")
               [str "Fish"; str "salad"]
               (calculate_nutrients [str "Fish"; str "salad"]))
            (next state_dinner sample_message) _).
  vm_compute. reflexivity.
Defined.

End Tolerance.

(** * Logging and the queries *)
Section Progress.

Lemma consumed_snoc (l : list meal) (m : meal) :
  consumed (l ++ [m]) = add_nutrients (consumed l) (m_nutrients m).
Proof. unfold consumed. now rewrite fold_left_app. Qed.

(** X18: a date filter only removes meals: when a listing with a filter
    succeeds, the listing without one succeeds too, every meal of the
    first is a meal of the second, and its count, which is the length of
    its list, is not larger. *)
Theorem date_filter_only_removes
        (st : state) (user d : pystr) (v : meals_view) :
  get_user_meals st user (Some d) = Success v ->
  exists w,
    get_user_meals st user None = Success w
    /\ incl (mv_meals v) (mv_meals w)
    /\ (mv_total_meals v <= mv_total_meals w)%nat
    /\ mv_total_meals v = List.length (mv_meals v).
Proof.
  unfold get_user_meals. destruct (negb (has (users st) user)); [discriminate|].
  destruct (truthy d).
  - destruct (strptime_ymd d) as [fd|]; [|discriminate].
    intros [= <-]. eexists. split; [reflexivity|]. cbn [mv_meals mv_total_meals].
    repeat split; [apply incl_filter | apply filter_length_le].
  - intros [= <-]. eexists. split; [reflexivity|]. cbn [mv_meals mv_total_meals].
    repeat split; [apply incl_refl | lia].
Qed.

Lemma date_filter_only_removes_witness :
  exists w,
    get_user_meals state_dinner asha_id None = Success w
    /\ incl [dinner_meal] (mv_meals w)
    /\ (1 <= mv_total_meals w)%nat.
Proof.
  destruct (date_filter_only_removes state_dinner asha_id (str "2024-05-18")
              (mk_meals_view asha_id [dinner_meal] 1))
    as (w & Hw & Hi & Hl & _).
  - vm_compute. reflexivity.
  - exists w. repeat split; assumption.
Defined.

(** X19: a successful free-text request, in a reachable state, appends
    one meal for the default user: the listing of the default user's meals
    is the listing before with the new meal at the end, and the identifier
    it is filed under was not in use. *)
Theorem webhook_meal_is_listed
        (st : state) (clk : clock) (text : pystr)
        (v : webhook_view) (st' : state) :
  reachable st ->
  webhook_handler st clk text = (Success v, st') ->
  let m := mk_meal (wv_meal_id v) default_user (wv_meal_type v) (wv_food_items v)
                   (logged_now clk) (wv_nutrients v) in
  has (meals st) (wv_meal_id v) = false
  /\ meals st' = meals st ++ [(wv_meal_id v, m)]
  /\ get_user_meals st' default_user None
     = Success (mk_meals_view default_user (meals_of st default_user ++ [m])
                  (S (List.length (meals_of st default_user)))).
Proof.
  intros Hr H m. pose proof (reachable_invariant st Hr) as Hinv.
  destruct (webhook_success st clk text v st' H)
    as (p0 & p1 & _ & _ & _ & _ & Hv & Hst).
  assert (Hf : has (meals st) (wv_meal_id v) = false).
  { rewrite Hv. cbn [wv_meal_id]. apply fresh_webhook_meal_id, Hinv. }
  rewrite (set_fresh _ _ _ Hf) in Hst. fold m in Hst. subst st'.
  cbn [users meals]. repeat split; [exact Hf|].
  unfold get_user_meals, meals_of. cbn [users meals].
  rewrite provisioned_has. cbn [negb].
  rewrite values_snoc, filter_app. cbn [filter m_user_id m].
  rewrite str_eqb_refl, length_app. cbn [List.length].
  do 2 f_equal. lia.
Qed.

Lemma webhook_meal_is_listed_witness :
  exists m,
    get_user_meals (next state_dinner sample_message) default_user None
    = Success (mk_meals_view default_user [m] 1)
    /\ m_food_items m = [str "Fish"; str "salad"].
Proof.
  destruct (webhook_meal_is_listed state_dinner clock1
              (str " log Dinner : Fish,  salad ,")
              (mk_webhook_view (webhook_meal_id_of 3 (epoch clock1)) (str "dinner")
                 [str "Fish"; str "salad"]
                 (calculate_nutrients [str "Fish"; str "salad"]))
              (next state_dinner sample_message) state_dinner_reachable)
    as (_ & _ & H).
  - vm_compute. reflexivity.
  - eexists. split; [exact H | reflexivity].
Defined.

(** X20: a successful structured log, in a reachable state, moves the
    user's status by exactly that meal: the same name and BMR, the totals
    before plus the returned totals, field by field, and one meal more. *)
Theorem status_after_log
        (st : state) (clk : clock) (d : MealLogging)
        (meal_id : pystr) (n : nutrients) (st' : state) (s : status_view) :
  reachable st ->
  log_meals st clk d = (Success (meal_id, n), st') ->
  get_user_status st (log_user d) = Success s ->
  get_user_status st' (log_user d)
  = Success (mk_status_view (sv_user s) (sv_name s) (sv_bmr s)
               (add_nutrients (sv_consumed_nutrients s) n)
               (S (sv_total_meals s))).
Proof.
  intros Hr H Hs. pose proof (reachable_invariant st Hr) as Hinv.
  rewrite (log_meals_exact st clk d Hinv) in H.
  destruct (negb (has (users st) (log_user d))); [discriminate H|].
  destruct (negb (mem _ valid_meals)); [discriminate H|].
  cbv zeta in H. injection H as <- <- <-.
  unfold get_user_status in *. cbn [users meals].
  destruct (get (users st) (log_user d)) as [u|]; [|discriminate Hs].
  injection Hs as <-. cbn [sv_user sv_name sv_bmr sv_consumed_nutrients sv_total_meals].
  unfold meals_of. cbn [meals].
  rewrite values_snoc, filter_app. cbn [filter m_user_id].
  rewrite str_eqb_refl, consumed_snoc, length_app. cbn [List.length m_nutrients].
  do 2 f_equal. lia.
Qed.

Lemma status_after_log_witness :
  get_user_status state_dinner asha_id
  = Success (mk_status_view asha_id (str "Asha") (lit 138368 100)
               (add_nutrients (calculate_nutrients [str "rice"; str "dal"])
                              (calculate_nutrients [str "chicken"]))
               2).
Proof.
  refine (status_after_log state_lunch clock1
            (mk_logging asha_id (str "dinner") [str "chicken"])
            (meal_id_of 2 (epoch clock1)) (calculate_nutrients [str "chicken"])
            state_dinner
            (mk_status_view asha_id (str "Asha") (lit 138368 100)
               (calculate_nutrients [str "rice"; str "dal"]) 1) _ _ _).
  - change state_lunch with (final initial (firstn 2 sample_requests)).
    apply reachable_final. constructor.
  - vm_compute. reflexivity.
  - vm_compute. reflexivity.
Defined.

End Progress.
